(** * SecureSMTPClientBase: the STARTTLS upgrade layer of the SMTP client

    A shallow embedding of [src/src/securesmtpclientbase.cpp].  The object
    under study owns three OpenSSL handles ([mBIO], [mCTX], [mSSL]) next to
    the socket it inherits from the plaintext client.  Every call into
    OpenSSL, the socket layer or the operating system is recorded in a
    chronological trace, and the answers of those calls come from an
    environment record, so that the control flow of the C++ code can be run
    and reasoned about. *)

From Stdlib Require Import ZArith List String Ascii Bool Lia.
From stdpp Require Import base option list gmap pretty.
Import ListNotations.

Local Open Scope Z_scope.

(** ** Machine integers *)

(** [unsigned int]: arithmetic modulo 2^32. *)
Definition uint_wrap (z : Z) : Z := z mod 2 ^ 32.

(** Conversion to a 32-bit [int] (of a [long], or of an [unsigned int]
    pushed through a [%i] format). *)
Definition int_wrap (z : Z) : Z := (z + 2 ^ 31) mod 2 ^ 32 - 2 ^ 31.

Definition is_uint (z : Z) : Prop := 0 <= z < 2 ^ 32.
Definition is_int (z : Z) : Prop := - 2 ^ 31 <= z < 2 ^ 31.

(** ** Pointers and constants of the libraries *)

Definition nullptr : Z := 0.

(** OpenSSL: [# define X509_V_OK 0]. *)
Definition X509_V_OK : Z := 0.

(** The build target selected by [#ifdef _WIN32]. *)
Inductive Platform := Win32 | Posix.

(** The macros of [sslerrors.h] used by [startTLSNegotiation].  The header
    is not part of the sources at hand, so the values are parameters. *)
Record SSLErrors := mkSSLErrors {
  SSL_CLIENT_STARTTLS_INITSSLCTX_ERROR : Z;
  SSL_CLIENT_STARTTLS_BIONEWSSLCONNECT_ERROR : Z;
  SSL_CLIENT_STARTTLS_WIN_CERTOPENSYSTEMSTORE_ERROR : Z;
  SSL_CLIENT_STARTTLS_CTX_SET_DEFAULT_VERIFY_PATHS_ERROR : Z;
  SSL_CLIENT_STARTTLS_BIO_CONNECT_ERROR : Z;
  SSL_CLIENT_STARTTLS_BIO_HANDSHAKE_ERROR : Z;
  SSL_CLIENT_STARTTLS_GET_CERTIFICATE_ERROR : Z;
  SSL_CLIENT_STARTTLS_VERIFY_RESULT_ERROR : Z
}.


(** ** The object *)

(** The members of the plaintext base class that this file reads or
    writes.  [mSock = 0] means "not connected". *)
Record SMTPClientBase := mkBase {
  mServerName : string;
  mPort : Z;
  mSock : Z;
  mCommandTimeOut : Z;
  mLastSocketErrNo : Z;
  mLastServerResponse : string;
  mCommunicationLog : list (string * option string)
}.

Record SecureSMTPClientBase := mkSecure {
  base : SMTPClientBase;
  mBIO : Z;
  mCTX : Z;
  mSSL : Z
}.

(** ** Calls that leave the object *)

Inductive Event :=
| E_SSL_library_init
| E_OpenSSL_add_all_algorithms
| E_SSL_load_error_strings
| E_SSL_CTX_new
| E_SSL_CTX_free (ctx : Z)
| E_ERR_get_error
| E_BIO_new_ssl_connect (ctx : Z)
| E_BIO_free_all (bio : Z)
| E_BIO_get_ssl (bio : Z)
| E_SSL_set_fd (ssl sock : Z)
| E_SSL_set_mode (ssl : Z)
| E_BIO_set_conn_hostname (bio : Z) (name : string)
| E_SSL_CTX_get_cert_store (ctx : Z)
| E_CertOpenSystemStore
| E_GetLastError
| E_CertEnumCertificatesInStore (hStore : Z)
| E_d2i_X509
| E_X509_STORE_add_cert (x509 : Z)
| E_X509_free (x509 : Z)
| E_CertFreeCertificateContext
| E_CertCloseStore (hStore : Z)
| E_SSL_CTX_set_default_verify_paths (ctx : Z)
| E_SSL_get_verify_result (ssl : Z)
| E_stderr_verification_warning (code : Z)
| E_BIO_do_connect (bio : Z)
| E_BIO_do_handshake (bio : Z)
| E_SSL_get_peer_certificate (ssl : Z)
| E_BIO_puts (bio : Z) (cmd : string)
| E_BIO_read (bio : Z)
| E_sleep (seconds : Z)
| E_Sleep (milliseconds : Z)
| E_shutdown (sock : Z)
| E_closesocket (sock : Z)
| E_close (sock : Z)
| E_WSACleanup.

(** The state threaded through the member functions: the object itself and
    the calls made so far, oldest first. *)
Record World := mkWorld {
  self : SecureSMTPClientBase;
  calls : list Event
}.

Definition M (A : Type) : Type := World -> A * World.

Definition ret {A} (a : A) : M A := fun w => (a, w).

Definition bind {A B} (m : M A) (k : A -> M B) : M B :=
  fun w => let (a, w') := m w in k a w'.

Declare Scope smtp_scope.
Delimit Scope smtp_scope with smtp.
Notation "'let*' x ':=' m 'in' k" := (bind m (fun x => k))
  (at level 10, x name, m at level 100, k at level 200) : smtp_scope.
Notation "m ';;;' k" := (bind m (fun _ => k))
  (at level 100, k at level 200, right associativity) : smtp_scope.
Local Open Scope smtp_scope.

Definition emit (e : Event) : M unit :=
  fun w => (tt, mkWorld (self w) (calls w ++ [e])).

Definition get {A} (f : SecureSMTPClientBase -> A) : M A :=
  fun w => (f (self w), w).

Definition modify (f : SecureSMTPClientBase -> SecureSMTPClientBase) : M unit :=
  fun w => (tt, mkWorld (f (self w)) (calls w)).

Definition when (b : bool) (m : M unit) : M unit := if b then m else ret tt.

(** Field assignments. *)
Definition set_base (f : SMTPClientBase -> SMTPClientBase)
    (c : SecureSMTPClientBase) : SecureSMTPClientBase :=
  mkSecure (f (base c)) (mBIO c) (mCTX c) (mSSL c).
Definition set_mBIO (v : Z) (c : SecureSMTPClientBase) :=
  mkSecure (base c) v (mCTX c) (mSSL c).
Definition set_mCTX (v : Z) (c : SecureSMTPClientBase) :=
  mkSecure (base c) (mBIO c) v (mSSL c).
Definition set_mSSL (v : Z) (c : SecureSMTPClientBase) :=
  mkSecure (base c) (mBIO c) (mCTX c) v.
Definition set_mSock (v : Z) : SecureSMTPClientBase -> SecureSMTPClientBase :=
  set_base (fun b => mkBase (mServerName b) (mPort b) v (mCommandTimeOut b)
                       (mLastSocketErrNo b) (mLastServerResponse b)
                       (mCommunicationLog b)).
(** [mLastSocketErrNo = v]: the member is taken to be an [int] (it is
    declared in the header of the base class, which is not part of the
    sources at hand), so that the [unsigned long] of [ERR_get_error] and
    the [DWORD] of [GetLastError] are narrowed when they are stored. *)
Definition set_mLastSocketErrNo (v : Z) : SecureSMTPClientBase -> SecureSMTPClientBase :=
  set_base (fun b => mkBase (mServerName b) (mPort b) (mSock b)
                       (mCommandTimeOut b) (int_wrap v) (mLastServerResponse b)
                       (mCommunicationLog b)).

(** Modelled from the spec: [setLastServerResponse] of the plaintext client
    (spec 6: "setLastServerResponse(text), last-response accessor"); it
    records the text it is given. *)
Definition setLastServerResponse (s : string) : M unit :=
  modify (set_base (fun b => mkBase (mServerName b) (mPort b) (mSock b)
                       (mCommandTimeOut b) (mLastSocketErrNo b) s
                       (mCommunicationLog b))).

(** Modelled from the spec: [addCommunicationLogItem] of the plaintext
    client (spec 6: "append-only diagnostic log" with an optional direction
    tag, "purely observational"). *)
Definition addCommunicationLogItem (msg : string) (tag : option string) : M unit :=
  modify (set_base (fun b => mkBase (mServerName b) (mPort b) (mSock b)
                       (mCommandTimeOut b) (mLastSocketErrNo b)
                       (mLastServerResponse b)
                       (mCommunicationLog b ++ [(msg, tag)]))).

(** ** The environment *)

(** What one [BIO_read (mBIO, outbuf, 1024)] gives: no data (the return
    value is [- k], zero or negative), or the bytes that arrived. *)
Inductive read_outcome :=
| NoData (k : N)
| Data (d : list ascii).

(** The answers of the outside world to the calls of the object. *)
Record Env := mkEnv {
  ssl_ctx_new : Z;
  err_get_error : Z;
  bio_new_ssl_connect : Z;
  bio_get_ssl : Z;
  cert_open_system_store : Z;
  get_last_error : Z;
  root_store_entries : list Z;
  ssl_ctx_set_default_verify_paths : Z;
  verify_result_before : Z;
  bio_do_connect : Z;
  bio_do_handshake : Z;
  ssl_get_peer_certificate : Z;
  verify_result_after : Z;
  bio_puts : Z;
  bio_read : nat -> read_outcome;
  stack : nat -> ascii
}.

(** ** Buffers and C strings *)

Definition NUL : ascii := "000"%char.
Definition CR : ascii := "013"%char.
Definition LF : ascii := "010"%char.

(** The text a [const char *] denotes: the bytes before the first NUL. *)
Fixpoint c_str (buf : list ascii) : string :=
  match buf with
  | [] => EmptyString
  | c :: rest => if Ascii.eqb c NUL then EmptyString else String c (c_str rest)
  end.

(** [char outbuf[1024]], not initialised: whatever the stack holds. *)
Definition outbuf_size : nat := 1024.
Definition fresh_outbuf (env : Env) : list ascii :=
  map (stack env) (seq 0 outbuf_size).

(** The bytes a read delivers (at most the 1024 asked for), its return
    value and its effect on the buffer. *)
Definition delivered (r : read_outcome) : list ascii :=
  match r with
  | NoData _ => []
  | Data d => take outbuf_size d
  end.
Definition read_return (r : read_outcome) : Z :=
  match r with
  | NoData k => - Z.of_N k
  | Data d => Z.of_nat (length (take outbuf_size d))
  end.
Definition fill (outbuf : list ascii) (r : read_outcome) : list ascii :=
  delivered r ++ drop (length (delivered r)) outbuf.

(** [sprintf (name, "%s:%i", getServerName (), getServerPort ())].  Server
    names that overflow [char name[1024]] are outside the model. *)
Definition connection_target (b : SMTPClientBase) : string :=
  (mServerName b ++ ":" ++ pretty (int_wrap (mPort b)))%string.

(** White space, the first token of a line and the value of a decimal
    numeral, for the reading of reply codes below. *)
Definition is_space (c : ascii) : bool :=
  match c with
  | " "%char | "009"%char | "010"%char | "011"%char | "012"%char | "013"%char => true
  | _ => false
  end.
Fixpoint first_token (s : string) : list ascii :=
  match s with
  | EmptyString => []
  | String c rest => if is_space c then [] else c :: first_token rest
  end.
Definition digit_value (c : ascii) : option Z :=
  let n := Z.of_nat (nat_of_ascii c) in
  if (48 <=? n) && (n <=? 57) then Some (n - 48) else None.
Fixpoint decimal_value (acc : Z) (l : list ascii) : option Z :=
  match l with
  | [] => Some acc
  | c :: rest =>
      match digit_value c with
      | Some d => decimal_value (10 * acc + d) rest
      | None => None
      end
  end.
(** Modelled from the spec: [extractReturnCode] of the plaintext client,
    which is not part of the sources at hand (spec 4.4: "the first
    whitespace-delimited token of the response is interpreted as an integer
    SMTP reply code"; the result on a malformed token is left open there,
    so it is the argument [malformed]). *)
Definition extractReturnCode_spec (malformed : Z) (s : string) : Z :=
  match first_token s with
  | [] => malformed
  | tok => match decimal_value 0 tok with
           | Some v => v
           | None => malformed
           end
  end.

(** ** The member functions *)

Section Member_functions.
Variable plat : Platform.
Variable E : SSLErrors.
Variable env : Env.
Variable extractReturnCode : string -> Z.

(** A call whose arguments are read from the members. *)
Definition emitf (f : SecureSMTPClientBase -> Event) : M unit :=
  fun w => emit (f (self w)) w.

(** cleanup (lines 91-114). *)
Definition close_socket (s : Z) : M unit :=
  match plat with
  | Win32 => emit (E_shutdown s);;; emit (E_closesocket s)
  | Posix => emit (E_close s)
  end.

Definition cleanup : M unit :=
  let* ctx := get mCTX in
  when (negb (ctx =? nullptr)) (emit (E_SSL_CTX_free ctx));;;
  modify (set_mCTX nullptr);;;
  let* bio := get mBIO in
  when (negb (bio =? nullptr)) (emit (E_BIO_free_all bio));;;
  modify (set_mBIO nullptr);;;
  let* sock := get (fun c => mSock (base c)) in
  when (negb (sock =? 0)) (close_socket sock);;;
  modify (set_mSock 0);;;
  modify (set_mSSL nullptr);;;
  match plat with
  | Win32 => emit E_WSACleanup
  | Posix => ret tt
  end.


(** initializeSSLContext (lines 117-129). *)
Definition initializeSSLContext : M unit :=
  emit E_SSL_library_init;;;
  emit E_OpenSSL_add_all_algorithms;;;
  emit E_SSL_load_error_strings;;;
  emit E_SSL_CTX_new;;;
  modify (set_mCTX (ssl_ctx_new env));;;
  let* ctx := get mCTX in
  when (ctx =? nullptr)
    (emit E_ERR_get_error;;; modify (set_mLastSocketErrNo (err_get_error env))).

(** The [while] loop of lines 164-173: one round per certificate of the
    system store, then the call that finds no further one. *)
Fixpoint import_root_certificates (hStore : Z) (entries : list Z) : M unit :=
  match entries with
  | [] => emit (E_CertEnumCertificatesInStore hStore)
  | x509 :: rest =>
      emit (E_CertEnumCertificatesInStore hStore);;;
      emit E_d2i_X509;;;
      when (negb (x509 =? nullptr))
        (emit (E_X509_STORE_add_cert x509);;; emit (E_X509_free x509));;;
      import_root_certificates hStore rest
  end.

(** Lines 152-178: [Some code] when the function returns [code] there. *)
Definition provision_trust_store : M (option Z) :=
  match plat with
  | Win32 =>
      emitf (fun c => E_SSL_CTX_get_cert_store (mCTX c));;;
      emit E_CertOpenSystemStore;;;
      let hStore := cert_open_system_store env in
      if hStore =? 0 then
        emit E_GetLastError;;;
        modify (set_mLastSocketErrNo (get_last_error env));;;
        ret (Some (SSL_CLIENT_STARTTLS_WIN_CERTOPENSYSTEMSTORE_ERROR E))
      else
        import_root_certificates hStore (root_store_entries env);;;
        ret None
  | Posix =>
      emitf (fun c => E_SSL_CTX_set_default_verify_paths (mCTX c));;;
      if ssl_ctx_set_default_verify_paths env =? 0 then
        ret (Some (SSL_CLIENT_STARTTLS_CTX_SET_DEFAULT_VERIFY_PATHS_ERROR E))
      else ret None
  end.

(** startTLSNegotiation (lines 131-228). *)
Definition startTLSNegotiation : M Z :=
  addCommunicationLogItem "<Start TLS negotiation>" None;;;
  initializeSSLContext;;;
  let* ctx := get mCTX in
  if ctx =? nullptr then ret (SSL_CLIENT_STARTTLS_INITSSLCTX_ERROR E) else
  emitf (fun c => E_BIO_new_ssl_connect (mCTX c));;;
  modify (set_mBIO (bio_new_ssl_connect env));;;
  let* bio := get mBIO in
  if bio =? nullptr then ret (SSL_CLIENT_STARTTLS_BIONEWSSLCONNECT_ERROR E) else
  let* name := get (fun c => connection_target (base c)) in
  emitf (fun c => E_BIO_get_ssl (mBIO c));;;
  modify (set_mSSL (bio_get_ssl env));;;
  emitf (fun c => E_SSL_set_fd (mSSL c) (mSock (base c)));;;
  emitf (fun c => E_SSL_set_mode (mSSL c));;;
  emitf (fun c => E_BIO_set_conn_hostname (mBIO c) name);;;
  let* failed := provision_trust_store in
  match failed with
  | Some code => ret code
  | None =>
  emitf (fun c => E_SSL_get_verify_result (mSSL c));;;
  let verify_flag := verify_result_before env in
  when (negb (verify_flag =? X509_V_OK))
    (emit (E_stderr_verification_warning (int_wrap verify_flag)));;;
  emitf (fun c => E_BIO_do_connect (mBIO c));;;
  if bio_do_connect env <=? 0 then
    cleanup;;;
    emit E_ERR_get_error;;;
    modify (set_mLastSocketErrNo (err_get_error env));;;
    ret (SSL_CLIENT_STARTTLS_BIO_CONNECT_ERROR E)
  else
  addCommunicationLogItem "<Negotiate a TLS session>" (Some "c & s"%string);;;
  emitf (fun c => E_BIO_do_handshake (mBIO c));;;
  if bio_do_handshake env <=? 0 then
    cleanup;;;
    emit E_ERR_get_error;;;
    modify (set_mLastSocketErrNo (err_get_error env));;;
    ret (SSL_CLIENT_STARTTLS_BIO_HANDSHAKE_ERROR E)
  else
  addCommunicationLogItem "<Check result of negotiation>" (Some "c & s"%string);;;
  emitf (fun c => E_SSL_get_peer_certificate (mSSL c));;;
  let cert := ssl_get_peer_certificate env in
  when (negb (cert =? nullptr)) (emit (E_X509_free cert));;;
  if cert =? nullptr then
    cleanup;;;
    ret (SSL_CLIENT_STARTTLS_GET_CERTIFICATE_ERROR E)
  else
  emitf (fun c => E_SSL_get_verify_result (mSSL c));;;
  let res := int_wrap (verify_result_after env) in
  if negb (X509_V_OK =? res) then
    cleanup;;;
    ret (SSL_CLIENT_STARTTLS_VERIFY_RESULT_ERROR E)
  else
  addCommunicationLogItem "TLS session ready!" None;;;
  match plat with
  | Win32 =>
      emit E_CertFreeCertificateContext;;;
      emit (E_CertCloseStore (cert_open_system_store env))
  | Posix => ret tt
  end;;;
  ret 0
  end.

(** [const int status = BIO_puts (mBIO, pCommand) < 0]: the comparison
    binds tighter than the initialisation, so [status] is 1 or 0. *)
Definition puts_status : Z := if bio_puts env <? 0 then 1 else 0.

(** sendCommand (lines 248-256). *)
Definition sendCommand (pCommand : string) (pErrorCode : Z) : M Z :=
  emitf (fun c => E_BIO_puts (mBIO c) pCommand);;;
  if negb (puts_status =? 0) then
    emit E_ERR_get_error;;;
    modify (set_mLastSocketErrNo (err_get_error env));;;
    cleanup;;;
    ret pErrorCode
  else ret 0.

(** [sleep (1)]: [unistd.h]'s [sleep], in seconds; on Windows line 13 makes
    the name stand for [Sleep], whose argument is in milliseconds. *)
Definition sleep (n : Z) : M unit :=
  match plat with
  | Win32 => emit (E_Sleep n)
  | Posix => emit (E_sleep n)
  end.

(** The polling loop of lines 270-273.  [attempt] counts the reads of this
    call; the result is [(bytes_received, waitTime, outbuf)] at the exit of
    the loop, or [None] when [fuel] rounds were not enough to reach it. *)
Fixpoint poll (fuel attempt : nat) (waitTime : Z) (outbuf : list ascii)
    : M (option (Z * Z * list ascii)) :=
  match fuel with
  | O => ret None
  | S fuel' =>
      emitf (fun c => E_BIO_read (mBIO c));;;
      let r := bio_read env attempt in
      let bytes_received := read_return r in
      let outbuf' := fill outbuf r in
      let* budget := get (fun c => mCommandTimeOut (base c)) in
      if (bytes_received <=? 0) && (waitTime <? budget) then
        sleep 1;;;
        poll fuel' (S attempt) (uint_wrap (waitTime + 1)) outbuf'
      else ret (Some (bytes_received, waitTime, outbuf'))
  end.

(** sendCommandWithFeedback (lines 258-283). *)
Definition sendCommandWithFeedback (fuel : nat) (pCommand : string)
    (pErrorCode pTimeoutCode : Z) : M (option Z) :=
  emitf (fun c => E_BIO_puts (mBIO c) pCommand);;;
  if negb (puts_status =? 0) then
    emit E_ERR_get_error;;;
    modify (set_mLastSocketErrNo (err_get_error env));;;
    cleanup;;;
    ret (Some pErrorCode)
  else
  let* exit := poll fuel 0 0 (fresh_outbuf env) in
  match exit with
  | None => ret None
  | Some (bytes_received, waitTime, outbuf) =>
      let* budget := get (fun c => mCommandTimeOut (base c)) in
      if waitTime <? budget then
        let outbuf := <[Z.to_nat (bytes_received - 1) := NUL]> outbuf in
        setLastServerResponse (c_str outbuf);;;
        addCommunicationLogItem (c_str outbuf) (Some "s"%string);;;
        ret (Some (extractReturnCode (c_str outbuf)))
      else
        cleanup;;;
        ret (Some pTimeoutCode)
  end.

End Member_functions.

(** ** Running a member function on an object *)

(** What one member call does to an object, started with an empty trace. *)
Definition run {A} (m : M A) (c : SecureSMTPClientBase) : A * World :=
  m (mkWorld c []).
Definition result_of {A} (m : M A) (c : SecureSMTPClientBase) : A :=
  fst (run m c).
Definition object_after {A} (m : M A) (c : SecureSMTPClientBase) :=
  self (snd (run m c)).
Definition calls_of {A} (m : M A) (c : SecureSMTPClientBase) :=
  calls (snd (run m c)).

(** All handles empty: the state [cleanup] establishes. *)
Definition torn_down (c : SecureSMTPClientBase) : Prop :=
  mCTX c = nullptr /\ mBIO c = nullptr /\ mSSL c = nullptr /\ mSock (base c) = 0.

(** The calls that give a context, a session or a socket back. *)
Definition releases_handle (e : Event) : bool :=
  match e with
  | E_SSL_CTX_free _ | E_BIO_free_all _
  | E_shutdown _ | E_closesocket _ | E_close _ => true
  | _ => false
  end.

(** The calls that release anything at all, the networking subsystem
    included. *)
Definition is_release (e : Event) : bool :=
  match e with
  | E_WSACleanup => true
  | _ => releases_handle e
  end.


(** How long a call pauses the caller, in milliseconds. *)
Definition pause_milliseconds (e : Event) : option Z :=
  match e with
  | E_sleep seconds => Some (1000 * seconds)
  | E_Sleep milliseconds => Some milliseconds
  | _ => None
  end.
Definition pauses (l : list Event) : list Z := omap pause_milliseconds l.

(** The stages 5 to 8 of the handshake, and the advisory check of stage 4
    with them since it makes the same library call as stage 8. *)
Definition is_handshake_stage (e : Event) : bool :=
  match e with
  | E_BIO_do_connect _ | E_BIO_do_handshake _
  | E_SSL_get_peer_certificate _ | E_SSL_get_verify_result _ => true
  | _ => false
  end.


(** ** Closed forms used by the proofs *)

(** The object [cleanup] leaves and the calls it makes. *)
Definition cleaned (c : SecureSMTPClientBase) : SecureSMTPClientBase :=
  set_mSSL nullptr (set_mSock 0 (set_mBIO nullptr (set_mCTX nullptr c))).

Definition close_socket_calls (plat : Platform) (s : Z) : list Event :=
  match plat with
  | Win32 => [E_shutdown s; E_closesocket s]
  | Posix => [E_close s]
  end.

Definition cleanup_calls (plat : Platform) (c : SecureSMTPClientBase) : list Event :=
  (if mCTX c =? nullptr then [] else [E_SSL_CTX_free (mCTX c)]) ++
  (if mBIO c =? nullptr then [] else [E_BIO_free_all (mBIO c)]) ++
  (if mSock (base c) =? 0 then [] else close_socket_calls plat (mSock (base c))) ++
  match plat with Win32 => [E_WSACleanup] | Posix => [] end.

Definition sleep_call (plat : Platform) (n : Z) : Event :=
  match plat with Win32 => E_Sleep n | Posix => E_sleep n end.

(** The calls of [n] rounds of the polling loop that found nothing. *)
Fixpoint idle_rounds (plat : Platform) (bio : Z) (n : nat) : list Event :=
  match n with
  | O => []
  | S n' => E_BIO_read bio :: sleep_call plat 1 :: idle_rounds plat bio n'
  end.

(** [wp m w Q]: running [m] from [w] ends with a result and a world that
    satisfy [Q]. *)
Definition wp {A} (m : M A) (w : World) (Q : A -> World -> Prop) : Prop :=
  Q (fst (m w)) (snd (m w)).

(** The calls of the loop over the system store. *)
Fixpoint import_calls (hStore : Z) (entries : list Z) : list Event :=
  match entries with
  | [] => [E_CertEnumCertificatesInStore hStore]
  | x509 :: rest =>
      E_CertEnumCertificatesInStore hStore :: E_d2i_X509 ::
      (if x509 =? nullptr then []
       else [E_X509_STORE_add_cert x509; E_X509_free x509]) ++
      import_calls hStore rest
  end.

(** The object after [line] was recorded as the last response of the
    server and logged as received from it. *)
Definition answered (line : string) (c : SecureSMTPClientBase) : SecureSMTPClientBase :=
  mkSecure
    (mkBase (mServerName (base c)) (mPort (base c)) (mSock (base c))
       (mCommandTimeOut (base c)) (mLastSocketErrNo (base c)) line
       (mCommunicationLog (base c) ++ [(line, Some "s"%string)]))
    (mBIO c) (mCTX c) (mSSL c).

(** The text kept of the bytes a read delivered. *)
Definition kept_text (d : list ascii) : string :=
  c_str (removelast (take outbuf_size d)).

(** The environment after the answer of the advisory check is replaced. *)
Definition with_verify_result_before (v : Z) (env : Env) : Env :=
  mkEnv (ssl_ctx_new env) (err_get_error env) (bio_new_ssl_connect env)
    (bio_get_ssl env) (cert_open_system_store env) (get_last_error env)
    (root_store_entries env) (ssl_ctx_set_default_verify_paths env)
    v (bio_do_connect env) (bio_do_handshake env)
    (ssl_get_peer_certificate env) (verify_result_after env)
    (bio_puts env) (bio_read env) (stack env).





(** [int res = SSL_get_verify_result (mSSL)] (line 215): the result of
    the chain verification as stage 8 tests it. *)
Definition chain_verification_result (env : Env) : Z :=
  int_wrap (verify_result_after env).



(** ** Objects in memory: copies and moves (lines 38-89) *)

Section Relocation.
(** The four special members of the plaintext base class, which are not
    part of the sources at hand: what the copy constructor builds from
    [other], what the copy assignment makes of [this] given [other], and
    for the two moves the new [this] together with what is left of
    [other]. *)
Variable base_copy : SMTPClientBase -> SMTPClientBase.
Variable base_copy_assign : SMTPClientBase -> SMTPClientBase -> SMTPClientBase.
Variable base_move : SMTPClientBase -> SMTPClientBase * SMTPClientBase.
Variable base_move_assign :
  SMTPClientBase -> SMTPClientBase -> SMTPClientBase * SMTPClientBase.


(** Copy assignment (lines 48-57). *)
Definition copy_assignment (this other : Z)
    (mem : gmap Z SecureSMTPClientBase) : option (gmap Z SecureSMTPClientBase) :=
  match mem !! this, mem !! other with
  | Some t, Some o =>
      if bool_decide (this <> other) then
        Some (<[this := mkSecure (base_copy_assign (base t) (base o))
                          nullptr nullptr nullptr]> mem)
      else Some mem
  | _, _ => None
  end.


(** Move assignment (lines 74-89). *)
Definition move_assignment (this other : Z)
    (mem : gmap Z SecureSMTPClientBase) : option (gmap Z SecureSMTPClientBase) :=
  match mem !! this, mem !! other with
  | Some t, Some o =>
      if bool_decide (this <> other) then
        let (b, b_other) := base_move_assign (base t) (base o) in
        Some (<[other := mkSecure b_other nullptr nullptr nullptr]>
                (<[this := mkSecure b (mBIO o) (mCTX o) (mSSL o)]> mem))
      else Some mem
  | _, _ => None
  end.

End Relocation.

(** The three resource handles of an object. *)
Definition handles (c : SecureSMTPClientBase) : Z * Z * Z :=
  (mCTX c, mBIO c, mSSL c).




(** ** Sample data *)

Definition sample_errors : SSLErrors :=
  mkSSLErrors (-30) (-31) (-32) (-33) (-34) (-35) (-36) (-37).

(** A connected client with no TLS state yet, and the same client with a
    live secure session. *)
Definition plain_client (budget : Z) : SecureSMTPClientBase :=
  mkSecure (mkBase "smtp.example.org" 587 5 budget 0 "" []) nullptr nullptr nullptr.
Definition secure_client (budget : Z) : SecureSMTPClientBase :=
  mkSecure (mkBase "smtp.example.org" 587 5 budget 0 "" []) 8 7 9.

(** A server that answers every call favourably and delivers the bytes
    that [reads] gives. *)
Definition sample_env (reads : nat -> read_outcome) : Env :=
  mkEnv 7 99 8 9 11 5 [21; 0; 22] 1 0 1 1 33 0 16 reads (fun _ => "x"%char).

Definition silent : nat -> read_outcome := fun _ => NoData 0.

(** The raw line ["250 OK\r\n"], delivered by the first read, or only by
    read number [k]. *)
Definition line_250 : list ascii :=
  list_ascii_of_string "250 OK" ++ [CR; LF].
Definition answer_at (k : nat) (d : list ascii) : nat -> read_outcome :=
  fun j => if Nat.eqb j k then Data d else NoData 0.

(** [BIO_new_ssl_connect] fails; the default trust paths cannot be set;
    the system store cannot be opened; [SSL_CTX_new] fails. *)
Definition env_no_bio : Env :=
  mkEnv 7 99 0 9 11 5 [] 1 0 1 1 33 0 16 silent (fun _ => "x"%char).
Definition env_no_paths : Env :=
  mkEnv 7 99 8 9 11 5 [] 0 0 1 1 33 0 16 silent (fun _ => "x"%char).
Definition env_no_store : Env :=
  mkEnv 7 99 8 9 0 5 [] 1 0 1 1 33 0 16 silent (fun _ => "x"%char).
Definition env_no_ctx : Env :=
  mkEnv 0 99 8 9 11 5 [] 1 0 1 1 33 0 16 silent (fun _ => "x"%char).


(** [BIO_puts] fails. *)
Definition env_write_fails : Env :=
  mkEnv 7 99 8 9 11 5 [] 1 0 1 1 33 0 (-1) silent (fun _ => "x"%char).



(** ** The claims that the code does not meet, as they are worded *)

(** The terminator of ["250 OK\r\n"] is stripped and 250 is returned. *)
Definition line_250_is_stripped (plat : Platform) : Prop :=
  let m := sendCommandWithFeedback plat (sample_env (answer_at 0 line_250))
             (extractReturnCode_spec (-1)) 2 "ehlo localhost" (-1) (-2) in
  mLastServerResponse (base (object_after m (secure_client 3))) = "250 OK"%string /\
  result_of m (secure_client 3) = Some 250.

(** Every failing stage of the negotiation leaves the object torn down. *)
Definition failure_tears_down (plat : Platform) (E : SSLErrors) (env : Env)
    (c : SecureSMTPClientBase) : Prop :=
  result_of (startTLSNegotiation plat E env) c <> 0 ->
  torn_down (object_after (startTLSNegotiation plat E env) c).

(** Every pause of the polling loop lasts one second. *)
Definition sleeps_one_second_each (budget : Z) (l : list Event) : Prop :=
  pauses l = repeat 1000 (Z.to_nat budget).

(** ** getServerSecureIdentification (lines 230-246) *)

Section Secure_identification.
Variable plat : Platform.
Variable env : Env.
Variable extractReturnCode : string -> Z.
(** Two more macros of [sslerrors.h]. *)
Variable SSL_CLIENT_INITSECURECLIENT_ERROR : Z.
Variable SSL_CLIENT_INITSECURECLIENT_TIMEOUT : Z.
(** The authentication options of the plaintext base class and the parser
    that builds them from the text of a reply; neither is part of the
    sources at hand. *)
Variable ServerAuthOptions : Type.
Variable extractAuthenticationOptions : string -> ServerAuthOptions.

Definition EHLO_SUCCESS_CODE : Z := 250.

(** ["ehlo localhost\r\n"s]. *)
Definition ehlo : string :=
  ("ehlo localhost" ++ String CR (String LF EmptyString))%string.

(** The member [mAuthOptions] of the base class is threaded next to the
    object: the function takes the pointer held before the call ([None]
    for a null pointer) and returns, with the code, the pointer held after
    it.  [delete mAuthOptions] is the loss of the old value. *)
Definition getServerSecureIdentification (fuel : nat)
    (mAuthOptions : option ServerAuthOptions)
    : M (option (Z * option ServerAuthOptions)) :=
  addCommunicationLogItem
    "Contacting the server again but via the secure channel..." None;;;
  addCommunicationLogItem ehlo None;;;
  let* answer := sendCommandWithFeedback plat env extractReturnCode fuel ehlo
                   SSL_CLIENT_INITSECURECLIENT_ERROR
                   SSL_CLIENT_INITSECURECLIENT_TIMEOUT in
  match answer with
  | None => ret None
  | Some tls_command_return_code =>
      if negb (tls_command_return_code =? EHLO_SUCCESS_CODE) then
        ret (Some (tls_command_return_code, mAuthOptions))
      else
        let* response := get (fun c => mLastServerResponse (base c)) in
        ret (Some (EHLO_SUCCESS_CODE,
                   Some (extractAuthenticationOptions response)))
  end.

End Secure_identification.

(** ** communication_error (CommunicationError.cpp) *)

(** A [std::string] is a sequence of bytes in which NUL may occur;
    [c_str ()] gives those bytes followed by a NUL. *)
Definition std_string_c_str (s : list ascii) : list ascii := s ++ [NUL].

(** [memcpy (dest, src, n)] into a buffer of its own. *)
Definition memcpy (src : list ascii) (n : nat) : list ascii := take n src.

(** The object: the buffer [error_message] points to. *)
Record communication_error := mk_communication_error {
  error_message : list ascii
}.

(** The constructor (lines 5-10): a buffer of [size + 1] bytes filled from
    [err_msg.c_str ()]. *)
Definition communication_error_new (err_msg : list ascii) : communication_error :=
  let size_errormsg := length err_msg in
  mk_communication_error (memcpy (std_string_c_str err_msg) (size_errormsg + 1)).

(** [what ()] (lines 17-20) returns the buffer; read as a [const char *]
    it is the text before the first NUL. *)
Definition what (e : communication_error) : string := c_str (error_message e).

(** ** Classes of calls and variations of the environment *)

Definition is_read (e : Event) : bool :=
  match e with E_BIO_read _ => true | _ => false end.


(** The same environment with another content of the stack, and with
    other certificates in the system store. *)
Definition with_stack (s : nat -> ascii) (env : Env) : Env :=
  mkEnv (ssl_ctx_new env) (err_get_error env) (bio_new_ssl_connect env)
    (bio_get_ssl env) (cert_open_system_store env) (get_last_error env)
    (root_store_entries env) (ssl_ctx_set_default_verify_paths env)
    (verify_result_before env) (bio_do_connect env) (bio_do_handshake env)
    (ssl_get_peer_certificate env) (verify_result_after env)
    (bio_puts env) (bio_read env) s.



Definition line_421 : list ascii :=
  list_ascii_of_string "421 busy" ++ [CR; LF].

(** * Theorems *)

(** ** Machine integers *)

Lemma int_wrap_id (z : Z) : is_int z -> int_wrap z = z.
Proof.
  unfold is_int, int_wrap. intros H.
  rewrite Z.mod_small by lia. lia.
Qed.

Lemma uint_wrap_id (z : Z) : is_uint z -> uint_wrap z = z.
Proof. unfold is_uint, uint_wrap. intros H. apply Z.mod_small. lia. Qed.

(** A verification result that fits an [int], as those of OpenSSL do, is
    tested by stage 8 as it was returned. *)
Lemma chain_verification_result_in_range (env : Env) :
  is_int (verify_result_after env) ->
  chain_verification_result env = verify_result_after env.
Proof. apply int_wrap_id. Qed.

(** ** cleanup *)

Lemma cleanup_run (plat : Platform) (w : World) :
  cleanup plat w =
  (tt, mkWorld (cleaned (self w)) (calls w ++ cleanup_calls plat (self w))).
Proof.
  destruct w as [[[name port sock budget errno response log] bio ctx ssl] l].
  cbv -[Z.eqb app].
  destruct (ctx =? 0), (bio =? 0), (sock =? 0), plat; cbn;
    rewrite <- ?app_assoc, ?app_nil_r; reflexivity.
Qed.

Lemma cleaned_torn_down (c : SecureSMTPClientBase) : torn_down (cleaned c).
Proof. unfold torn_down, cleaned; simpl; auto. Qed.

Lemma cleanup_calls_cleaned (plat : Platform) (c : SecureSMTPClientBase) :
  cleanup_calls plat (cleaned c) =
  match plat with Win32 => [E_WSACleanup] | Posix => [] end.
Proof. destruct plat; reflexivity. Qed.

Lemma object_after_cleanup (plat : Platform) (c : SecureSMTPClientBase) :
  object_after (cleanup plat) c = cleaned c.
Proof. unfold object_after, run. rewrite cleanup_run. reflexivity. Qed.

Lemma calls_of_cleanup (plat : Platform) (c : SecureSMTPClientBase) :
  calls_of (cleanup plat) c = cleanup_calls plat c.
Proof. unfold calls_of, run. rewrite cleanup_run. reflexivity. Qed.





(** [cleanup] is idempotent on the handles.  From every starting state,
    those included in which some or all of context, session and socket were
    never acquired, a second call in a row leaves the object as the first
    one left it, with all handles empty (context null, session null, SSL
    handle null, socket at the sentinel 0), and the second call releases no
    context, no session and no socket: closing the socket twice is a
    no-op. *)
Theorem cleanup_idempotent (plat : Platform) (c : SecureSMTPClientBase) :
  let once := object_after (cleanup plat) c in
  object_after (cleanup plat) once = once /\
  torn_down once /\
  List.filter releases_handle (calls_of (cleanup plat) once) = [].
Proof.
  cbv zeta. rewrite !object_after_cleanup, calls_of_cleanup.
  rewrite cleanup_calls_cleaned. repeat split.
  destruct plat; reflexivity.
Qed.

(** C5: on the Windows build the second [cleanup] of a row, which finds
    every handle empty and leaves the object as it is, still performs a
    release: it calls [WSACleanup], the one release that lines 111-113 make
    without a guard, where the context (line 93), the session (line 97) and
    the socket (line 101) are tested first.  On POSIX the second call makes
    no call at all. *)
Theorem second_cleanup_releases_winsock (c : SecureSMTPClientBase) :
  let once := object_after (cleanup Win32) c in
  object_after (cleanup Win32) once = once /\
  calls_of (cleanup Win32) once = [E_WSACleanup] /\
  List.filter is_release (calls_of (cleanup Win32) once) <> [] /\
  calls_of (cleanup Posix) (object_after (cleanup Posix) c) = [].
Proof.
  cbv zeta. rewrite !object_after_cleanup, !calls_of_cleanup.
  rewrite !cleanup_calls_cleaned. repeat split. discriminate.
Qed.

(** ** Stepping through a member function *)

Lemma wp_bind {A B} (m : M A) (k : A -> M B) (w : World) Q :
  wp m w (fun a w' => wp (k a) w' Q) -> wp (bind m k) w Q.
Proof. unfold wp, bind. destruct (m w) as [a w']. auto. Qed.

Lemma wp_ret {A} (a : A) (w : World) (Q : A -> World -> Prop) :
  Q a w -> wp (ret a) w Q.
Proof. auto. Qed.

Lemma wp_emit (e : Event) (w : World) (Q : unit -> World -> Prop) :
  Q tt (mkWorld (self w) (calls w ++ [e])) -> wp (emit e) w Q.
Proof. auto. Qed.

Lemma wp_emitf (f : SecureSMTPClientBase -> Event) (w : World)
    (Q : unit -> World -> Prop) :
  Q tt (mkWorld (self w) (calls w ++ [f (self w)])) -> wp (emitf f) w Q.
Proof. auto. Qed.

Lemma wp_get {A} (f : SecureSMTPClientBase -> A) (w : World)
    (Q : A -> World -> Prop) :
  Q (f (self w)) w -> wp (get f) w Q.
Proof. auto. Qed.

Lemma wp_modify (f : SecureSMTPClientBase -> SecureSMTPClientBase) (w : World)
    (Q : unit -> World -> Prop) :
  Q tt (mkWorld (f (self w)) (calls w)) -> wp (modify f) w Q.
Proof. auto. Qed.

Lemma wp_cleanup (plat : Platform) (w : World) (Q : unit -> World -> Prop) :
  Q tt (mkWorld (cleaned (self w)) (calls w ++ cleanup_calls plat (self w))) ->
  wp (cleanup plat) w Q.
Proof. unfold wp. rewrite cleanup_run. auto. Qed.

Lemma wp_run {A} (m : M A) (c : SecureSMTPClientBase)
    (Q : A -> SecureSMTPClientBase -> list Event -> Prop) :
  wp m (mkWorld c []) (fun a w => Q a (self w) (calls w)) ->
  Q (result_of m c) (object_after m c) (calls_of m c).
Proof. auto. Qed.

(** ** startTLSNegotiation *)

Lemma import_run (hStore : Z) (entries : list Z) (w : World) :
  import_root_certificates hStore entries w =
  (tt, mkWorld (self w) (calls w ++ import_calls hStore entries)).
Proof.
  revert w. induction entries as [|x rest IH]; intros [c l].
  - reflexivity.
  - cbn [import_root_certificates import_calls].
    cbv -[Z.eqb app import_root_certificates import_calls].
    destruct (x =? 0); rewrite IH; cbn [self calls];
      rewrite <- !app_assoc; reflexivity.
Qed.

Lemma wp_import (hStore : Z) (entries : list Z) (w : World)
    (Q : unit -> World -> Prop) :
  Q tt (mkWorld (self w) (calls w ++ import_calls hStore entries)) ->
  wp (import_root_certificates hStore entries) w Q.
Proof. unfold wp. rewrite import_run. auto. Qed.

Lemma import_calls_no_stage (hStore : Z) (entries : list Z) :
  List.filter is_handshake_stage (import_calls hStore entries) = [].
Proof.
  induction entries as [|x rest IH]; cbn; [reflexivity|].
  rewrite List.filter_app, IH. destruct (x =? nullptr); reflexivity.
Qed.


Ltac wp_simpl :=
  cbv beta;
  cbn [self calls base mBIO mCTX mSSL mSock mServerName mPort mCommandTimeOut
       mLastSocketErrNo mLastServerResponse mCommunicationLog
       set_base set_mBIO set_mCTX set_mSSL set_mSock set_mLastSocketErrNo
       cleaned negb fst snd
       with_verify_result_before ssl_ctx_new err_get_error bio_new_ssl_connect
       bio_get_ssl cert_open_system_store get_last_error root_store_entries
       ssl_ctx_set_default_verify_paths verify_result_before bio_do_connect
       bio_do_handshake ssl_get_peer_certificate verify_result_after
       bio_puts bio_read stack].

(** A test whose outcome is already among the hypotheses is replaced by
    it; any other test splits the goal. *)
Ltac decide_test b :=
  first [ match goal with H : b = _ |- _ => rewrite H end
        | destruct b eqn:? ].

Ltac wp_step :=
  lazymatch goal with
  | |- wp (bind _ _) _ _ => apply wp_bind
  | |- wp (ret _) _ _ => apply wp_ret
  | |- wp (emit _) _ _ => apply wp_emit
  | |- wp (emitf _) _ _ => apply wp_emitf
  | |- wp (get _) _ _ => apply wp_get
  | |- wp (modify _) _ _ => apply wp_modify
  | |- wp (cleanup _) _ _ => apply wp_cleanup
  | |- wp (import_root_certificates _ _) _ _ => apply wp_import
  | |- wp (when _ _) _ _ => unfold when
  | |- wp (addCommunicationLogItem _ _) _ _ => unfold addCommunicationLogItem
  | |- wp (setLastServerResponse _) _ _ => unfold setLastServerResponse
  | |- wp (initializeSSLContext _) _ _ => unfold initializeSSLContext
  | |- wp (provision_trust_store _ _ _) _ _ => unfold provision_trust_store
  | |- wp (startTLSNegotiation _ _ _) _ _ => unfold startTLSNegotiation
  | |- wp (sleep _ _) _ _ => unfold sleep
  | |- wp (match ?p with Win32 => _ | Posix => _ end) _ _ => destruct p
  | |- wp (if negb ?b then _ else _) _ _ => decide_test b
  | |- wp (if ?b then _ else _) _ _ => decide_test b
  end; wp_simpl.







(** ** The advisory check of stage 4 *)






(** ** The polling loop *)

Lemma fill_nothing (outbuf : list ascii) (r : read_outcome) :
  read_return r <= 0 -> fill outbuf r = outbuf.
Proof.
  unfold fill. destruct r as [k|d]; cbn [read_return delivered].
  - reflexivity.
  - intros H. destruct (take outbuf_size d); [reflexivity | cbn in H; lia].
Qed.

(** One round that finds nothing while the budget lasts. *)
Lemma poll_idle_round (plat : Platform) (env : Env) (fuel attempt : nat)
    (waitTime : Z) (outbuf : list ascii) (w : World) :
  read_return (bio_read env attempt) <= 0 ->
  0 <= waitTime < mCommandTimeOut (base (self w)) ->
  mCommandTimeOut (base (self w)) < 2 ^ 32 ->
  poll plat env (S fuel) attempt waitTime outbuf w =
  poll plat env fuel (S attempt) (waitTime + 1) outbuf
    (mkWorld (self w)
       (calls w ++ [E_BIO_read (mBIO (self w)); sleep_call plat 1])).
Proof.
  intros Hread Hwait Hbudget. destruct w as [c l].
  cbn [poll]. unfold bind at 1. unfold emitf, emit at 1. cbn [self calls].
  unfold bind at 1. unfold get at 1. cbn [self calls].
  cbn [self] in Hwait, Hbudget.
  apply Z.leb_le in Hread. rewrite Hread.
  destruct Hwait as [Hlo Hhi]. apply Z.ltb_lt in Hhi. rewrite Hhi.
  cbn [andb]. apply Z.ltb_lt in Hhi. apply Z.leb_le in Hread.
  rewrite (fill_nothing outbuf _ Hread).
  rewrite uint_wrap_id by (unfold is_uint; lia).
  unfold bind, sleep, sleep_call. destruct plat; unfold emit; cbn [self calls];
    rewrite <- app_assoc; reflexivity.
Qed.

(** [n] rounds that find nothing while the budget lasts. *)
Lemma poll_idle (plat : Platform) (env : Env) (n : nat) :
  forall (fuel attempt : nat) (waitTime : Z) (outbuf : list ascii) (w : World),
  (forall j, (j < n)%nat -> read_return (bio_read env (attempt + j)) <= 0) ->
  0 <= waitTime ->
  waitTime + Z.of_nat n <= mCommandTimeOut (base (self w)) ->
  mCommandTimeOut (base (self w)) < 2 ^ 32 ->
  poll plat env (n + fuel) attempt waitTime outbuf w =
  poll plat env fuel (attempt + n) (waitTime + Z.of_nat n) outbuf
    (mkWorld (self w) (calls w ++ idle_rounds plat (mBIO (self w)) n)).
Proof.
  induction n as [|n IH]; intros fuel attempt waitTime outbuf w Hreads Hlo Hhi Hb.
  - cbn [idle_rounds Nat.add]. rewrite app_nil_r, Nat.add_0_r, Z.add_0_r.
    destruct w; reflexivity.
  - cbn [Nat.add]. rewrite poll_idle_round; try lia.
    + rewrite IH; cbn [self calls]; try lia.
      * rewrite <- app_assoc. cbn [idle_rounds app].
        replace (S attempt + n)%nat with (attempt + S n)%nat by lia.
        replace (waitTime + 1 + Z.of_nat n) with (waitTime + Z.of_nat (S n)) by lia.
        reflexivity.
      * intros j Hj. replace (S attempt + j)%nat with (attempt + S j)%nat by lia.
        apply Hreads. lia.
    + specialize (Hreads 0%nat). rewrite Nat.add_0_r in Hreads. apply Hreads. lia.
Qed.

(** The round that leaves the loop: data has arrived, or the budget is
    spent. *)
Lemma poll_exit (plat : Platform) (env : Env) (fuel attempt : nat)
    (waitTime : Z) (outbuf : list ascii) (w : World) :
  0 < read_return (bio_read env attempt) \/
  mCommandTimeOut (base (self w)) <= waitTime ->
  poll plat env (S fuel) attempt waitTime outbuf w =
  (Some (read_return (bio_read env attempt), waitTime,
         fill outbuf (bio_read env attempt)),
   mkWorld (self w) (calls w ++ [E_BIO_read (mBIO (self w))])).
Proof.
  intros H. destruct w as [c l].
  cbn [poll]. unfold bind at 1. unfold emitf, emit at 1. cbn [self calls].
  unfold bind at 1. unfold get at 1. cbn [self calls]. cbn [self] in H.
  replace ((read_return (bio_read env attempt) <=? 0) &&
           (waitTime <? mCommandTimeOut (base c))) with false; [reflexivity|].
  symmetry. apply andb_false_iff. destruct H as [H|H].
  - left. apply Z.leb_gt. exact H.
  - right. apply Z.ltb_ge. exact H.
Qed.

Lemma puts_accepted (env : Env) :
  0 <= bio_puts env -> negb (puts_status env =? 0) = false.
Proof.
  intros H. unfold puts_status.
  apply Z.ltb_ge in H. rewrite H. reflexivity.
Qed.

Lemma puts_refused (env : Env) :
  bio_puts env < 0 -> negb (puts_status env =? 0) = true.
Proof.
  intros H. unfold puts_status.
  apply Z.ltb_lt in H. rewrite H. reflexivity.
Qed.

(** The whole budget goes by without data: whatever the read made after
    the last pause delivers, the call cleans up and returns the timeout
    code. *)
Lemma timeout_when_budget_spent (plat : Platform) (env : Env)
    (extractReturnCode : string -> Z) (c : SecureSMTPClientBase) (fuel : nat)
    (pCommand : string) (pErrorCode pTimeoutCode : Z) :
  is_uint (mCommandTimeOut (base c)) ->
  0 <= bio_puts env ->
  (forall j, (j < Z.to_nat (mCommandTimeOut (base c)))%nat ->
             read_return (bio_read env j) <= 0) ->
  (Z.to_nat (mCommandTimeOut (base c)) < fuel)%nat ->
  run (sendCommandWithFeedback plat env extractReturnCode fuel pCommand
         pErrorCode pTimeoutCode) c =
  (Some pTimeoutCode,
   mkWorld (cleaned c)
     (E_BIO_puts (mBIO c) pCommand ::
      idle_rounds plat (mBIO c) (Z.to_nat (mCommandTimeOut (base c))) ++
      E_BIO_read (mBIO c) :: cleanup_calls plat c)).
Proof.
  intros [Hlo Hhi] Hputs Hreads Hfuel.
  unfold run, sendCommandWithFeedback.
  unfold bind at 1. unfold emitf, emit. cbn [self calls app].
  rewrite (puts_accepted env Hputs).
  set (n := Z.to_nat (mCommandTimeOut (base c))) in *.
  replace fuel with (n + S (fuel - n - 1))%nat by lia.
  unfold bind at 1.
  rewrite (poll_idle plat env n); cbn [self calls Nat.add]; try lia; [|exact Hreads].
  rewrite poll_exit by (right; cbn [self]; lia).
  cbn [self calls]. unfold bind at 1. unfold get at 1. cbn [self calls].
  replace (0 + Z.of_nat n <? mCommandTimeOut (base c)) with false
    by (symmetry; apply Z.ltb_ge; lia).
  unfold bind. rewrite cleanup_run. unfold ret. cbn [self calls app].
  rewrite <- app_assoc. reflexivity.
Qed.

Lemma c_str_stops_at_NUL (l rest : list ascii) :
  c_str (l ++ NUL :: rest) = c_str l.
Proof.
  induction l as [|x l IH]; cbn [c_str app].
  - reflexivity.
  - destruct (Ascii.eqb x NUL); [reflexivity | now rewrite IH].
Qed.

Lemma insert_after_prefix (l : list ascii) (x y : ascii) (rest : list ascii) :
  <[length l := y]> (l ++ x :: rest) = l ++ y :: rest.
Proof. induction l as [|a l IH]; cbn; [reflexivity | f_equal; exact IH]. Qed.

(** [outbuf[bytes_received - 1] = 0] after a read that delivered [d]: the
    text of the buffer is the text of [d] without its last byte. *)
Lemma text_of_cut_buffer (outbuf d : list ascii) :
  d <> [] ->
  c_str (<[Z.to_nat (Z.of_nat (length d) - 1) := NUL]>
           (d ++ drop (length d) outbuf)) =
  c_str (removelast d).
Proof.
  intros Hd. destruct (exists_last Hd) as (l & x & ->).
  rewrite removelast_last, length_app. cbn [length].
  replace (Z.to_nat (Z.of_nat (length l + 1) - 1)) with (length l) by lia.
  rewrite <- app_assoc. cbn [app].
  rewrite insert_after_prefix. apply c_str_stops_at_NUL.
Qed.

(** Data arrives while the budget lasts. *)
Lemma answer_before_timeout (plat : Platform) (env : Env)
    (extractReturnCode : string -> Z) (c : SecureSMTPClientBase)
    (fuel k : nat) (d : list ascii)
    (pCommand : string) (pErrorCode pTimeoutCode : Z) :
  is_uint (mCommandTimeOut (base c)) ->
  0 <= bio_puts env ->
  (forall j, (j < k)%nat -> read_return (bio_read env j) <= 0) ->
  bio_read env k = Data d -> d <> [] ->
  Z.of_nat k < mCommandTimeOut (base c) ->
  (k < fuel)%nat ->
  run (sendCommandWithFeedback plat env extractReturnCode fuel pCommand
         pErrorCode pTimeoutCode) c =
  (Some (extractReturnCode (kept_text d)),
   mkWorld (answered (kept_text d) c)
     (E_BIO_puts (mBIO c) pCommand ::
      idle_rounds plat (mBIO c) k ++ [E_BIO_read (mBIO c)])).
Proof.
  intros [Hlo Hhi] Hputs Hreads Hdata Hd Hk Hfuel.
  assert (Htake : take outbuf_size d <> []) by (destruct d; [congruence | discriminate]).
  unfold run, sendCommandWithFeedback.
  unfold bind at 1. unfold emitf, emit. cbn [self calls app].
  rewrite (puts_accepted env Hputs).
  replace fuel with (k + S (fuel - k - 1))%nat by lia.
  unfold bind at 1.
  rewrite (poll_idle plat env k); cbn [self calls Nat.add]; try lia; [|exact Hreads].
  rewrite poll_exit.
  2:{ left. rewrite Hdata. cbn [read_return].
      destruct (take outbuf_size d); [congruence | cbn; lia]. }
  cbn [self calls]. unfold bind at 1. unfold get at 1. cbn [self calls].
  replace (0 + Z.of_nat k <? mCommandTimeOut (base c)) with true
    by (symmetry; apply Z.ltb_lt; lia).
  rewrite Hdata. unfold fill. cbn [read_return delivered].
  rewrite text_of_cut_buffer by exact Htake.
  fold (kept_text d).
  unfold bind, setLastServerResponse, addCommunicationLogItem, modify, ret,
    answered, set_base.
  cbn [self calls base mBIO mCTX mSSL mServerName mPort mSock mCommandTimeOut
       mLastSocketErrNo mLastServerResponse mCommunicationLog].
  rewrite <- app_assoc. reflexivity.
Qed.

(** ** sendCommandWithFeedback: timeout and answer *)

Lemma pauses_idle_rounds (plat : Platform) (bio : Z) (n : nat) :
  pauses (idle_rounds plat bio n) =
  repeat (match plat with Win32 => 1 | Posix => 1000 end) n.
Proof.
  induction n as [|n IH]; [reflexivity|].
  cbn [idle_rounds repeat]. unfold pauses in *. destruct plat; cbn; now rewrite IH.
Qed.

Lemma pauses_cleanup_calls (plat : Platform) (c : SecureSMTPClientBase) :
  pauses (cleanup_calls plat c) = [].
Proof.
  unfold cleanup_calls.
  destruct (mCTX c =? nullptr), (mBIO c =? nullptr), (mSock (base c) =? 0), plat;
    reflexivity.
Qed.

(** The statable part of C3, on both platforms: with a budget of [T] and a
    server that never answers, the call makes [T + 1] reads with one pause
    after each of the first [T], cleans up and returns the timeout code.
    On POSIX every pause lasts one second; on Windows it lasts one
    millisecond. *)
Lemma no_response_times_out (plat : Platform) (env : Env)
    (extractReturnCode : string -> Z) (c : SecureSMTPClientBase) (fuel : nat)
    (pCommand : string) (pErrorCode pTimeoutCode : Z) :
  is_uint (mCommandTimeOut (base c)) ->
  0 <= bio_puts env ->
  (forall j, read_return (bio_read env j) <= 0) ->
  (Z.to_nat (mCommandTimeOut (base c)) < fuel)%nat ->
  let m := sendCommandWithFeedback plat env extractReturnCode fuel pCommand
             pErrorCode pTimeoutCode in
  result_of m c = Some pTimeoutCode /\
  torn_down (object_after m c) /\
  calls_of m c =
    E_BIO_puts (mBIO c) pCommand ::
    idle_rounds plat (mBIO c) (Z.to_nat (mCommandTimeOut (base c))) ++
    E_BIO_read (mBIO c) :: cleanup_calls plat c /\
  pauses (calls_of m c) =
    repeat (match plat with Win32 => 1 | Posix => 1000 end)
      (Z.to_nat (mCommandTimeOut (base c))).
Proof.
  intros Hu Hputs Hreads Hfuel m.
  assert (Hrun := timeout_when_budget_spent plat env extractReturnCode c fuel
                    pCommand pErrorCode pTimeoutCode Hu Hputs
                    (fun j _ => Hreads j) Hfuel).
  unfold result_of, object_after, calls_of. subst m. rewrite Hrun.
  cbn [fst snd self calls]. repeat split.
  unfold pauses. cbn [omap list_omap pause_milliseconds].
  change (omap pause_milliseconds) with pauses.
  unfold pauses. rewrite omap_app. cbn [omap list_omap pause_milliseconds].
  change (omap pause_milliseconds) with pauses.
  rewrite pauses_idle_rounds, pauses_cleanup_calls. apply app_nil_r.
Qed.

(** The lemma above at work on POSIX: a budget of 3 seconds, three pauses
    of one second. *)
Lemma no_response_times_out_witness :
  let m := sendCommandWithFeedback Posix (sample_env silent)
             (extractReturnCode_spec (-1)) 4 "ehlo localhost" (-1) (-2) in
  result_of m (secure_client 3) = Some (-2) /\
  torn_down (object_after m (secure_client 3)) /\
  pauses (calls_of m (secure_client 3)) = [1000; 1000; 1000].
Proof.
  cbv zeta.
  destruct (no_response_times_out Posix (sample_env silent)
              (extractReturnCode_spec (-1)) (secure_client 3) 4
              "ehlo localhost" (-1) (-2)) as (Hr & Ht & _ & Hp).
  - unfold is_uint; cbn; lia.
  - cbn; lia.
  - intros j. cbn. lia.
  - cbn; lia.
  - split; [exact Hr|]. split; [exact Ht | exact Hp].
Defined.

(** C3 on the Windows build, budget 1, a server that never answers: the
    call returns the timeout code after a single pause of one millisecond,
    [sleep] being [Sleep] there (line 13), not after a pause of one
    second. *)
Theorem windows_poll_pauses_one_millisecond :
  let m := sendCommandWithFeedback Win32 (sample_env silent)
             (extractReturnCode_spec (-1)) 2 "ehlo localhost" (-1) (-2) in
  result_of m (secure_client 1) = Some (-2) /\
  pauses (calls_of m (secure_client 1)) = [1] /\
  ~ sleeps_one_second_each 1 (calls_of m (secure_client 1)).
Proof.
  cbv zeta. split; [vm_compute; reflexivity|].
  split; [vm_compute; reflexivity|].
  unfold sleeps_one_second_each. vm_compute. discriminate.
Qed.

(** C10: when the first read that yields data is the one made after the
    elapsed-time counter has reached the budget (with a budget of 0: the
    very first read), the data is dropped: nothing is recorded as the last
    response, nothing is logged, all resources are torn down and the
    timeout code is returned. *)
Theorem late_answer_is_discarded (plat : Platform) (env : Env)
    (extractReturnCode : string -> Z) (c : SecureSMTPClientBase) (fuel : nat)
    (pCommand : string) (pErrorCode pTimeoutCode : Z) :
  is_uint (mCommandTimeOut (base c)) ->
  0 <= bio_puts env ->
  (forall j, (j < Z.to_nat (mCommandTimeOut (base c)))%nat ->
             read_return (bio_read env j) <= 0) ->
  0 < read_return (bio_read env (Z.to_nat (mCommandTimeOut (base c)))) ->
  (Z.to_nat (mCommandTimeOut (base c)) < fuel)%nat ->
  let m := sendCommandWithFeedback plat env extractReturnCode fuel pCommand
             pErrorCode pTimeoutCode in
  result_of m c = Some pTimeoutCode /\
  torn_down (object_after m c) /\
  mLastServerResponse (base (object_after m c)) = mLastServerResponse (base c) /\
  mCommunicationLog (base (object_after m c)) = mCommunicationLog (base c) /\
  calls_of m c =
    E_BIO_puts (mBIO c) pCommand ::
    idle_rounds plat (mBIO c) (Z.to_nat (mCommandTimeOut (base c))) ++
    E_BIO_read (mBIO c) :: cleanup_calls plat c.
Proof.
  intros Hu Hputs Hreads _ Hfuel m.
  assert (Hrun := timeout_when_budget_spent plat env extractReturnCode c fuel
                    pCommand pErrorCode pTimeoutCode Hu Hputs Hreads Hfuel).
  unfold result_of, object_after, calls_of. subst m. rewrite Hrun.
  cbn [fst snd self calls]. repeat split.
Qed.

(** C10 at work: with a budget of 0 the line ["250 OK\r\n"] delivered by
    the very first read is dropped; with a budget of 2 the same line
    delivered by the third read is. *)
Lemma late_answer_is_discarded_witness :
  (result_of (sendCommandWithFeedback Posix (sample_env (answer_at 0 line_250))
                (extractReturnCode_spec (-1)) 1 "ehlo localhost" (-1) (-2))
     (secure_client 0) = Some (-2) /\
   mLastServerResponse (base (object_after
     (sendCommandWithFeedback Posix (sample_env (answer_at 0 line_250))
        (extractReturnCode_spec (-1)) 1 "ehlo localhost" (-1) (-2))
     (secure_client 0))) = ""%string) /\
  result_of (sendCommandWithFeedback Win32 (sample_env (answer_at 2 line_250))
               (extractReturnCode_spec (-1)) 3 "ehlo localhost" (-1) (-2))
    (secure_client 2) = Some (-2).
Proof.
  split.
  - destruct (late_answer_is_discarded Posix (sample_env (answer_at 0 line_250))
                (extractReturnCode_spec (-1)) (secure_client 0) 1
                "ehlo localhost" (-1) (-2)) as (Hr & _ & Hl & _).
    + unfold is_uint; cbn; lia.
    + cbn; lia.
    + cbn. intros j Hj. lia.
    + vm_compute. reflexivity.
    + cbn. lia.
    + split; [exact Hr | exact Hl].
  - destruct (late_answer_is_discarded Win32 (sample_env (answer_at 2 line_250))
                (extractReturnCode_spec (-1)) (secure_client 2) 3
                "ehlo localhost" (-1) (-2)) as (Hr & _).
    + unfold is_uint; cbn; lia.
    + cbn; lia.
    + cbn. intros j Hj.
      destruct j as [|[|j]]; [vm_compute; discriminate | vm_compute; discriminate | lia].
    + vm_compute. reflexivity.
    + cbn. lia.
    + exact Hr.
Defined.

(** C4, as worded, fails on its own example: of ["250 OK\r\n"] only the
    last byte goes, so the text recorded ends in a carriage return. *)
Lemma line_250_keeps_carriage_return_counterexample :
  mLastServerResponse (base (object_after
    (sendCommandWithFeedback Posix (sample_env (answer_at 0 line_250))
       (extractReturnCode_spec (-1)) 2 "ehlo localhost" (-1) (-2))
    (secure_client 3))) = ("250 OK" ++ String CR EmptyString)%string /\
  ~ line_250_is_stripped Posix.
Proof.
  split; [vm_compute; reflexivity|].
  unfold line_250_is_stripped. intros [H _].
  vm_compute in H. discriminate H.
Qed.

(** C4 (amended): when data arrives before the budget is spent, the
    buffer is cut at index [bytes_received - 1], that is, the last byte
    received is overwritten by NUL; the text so obtained is recorded as
    the last response of the server, logged as received, and its status
    code, as [extractReturnCode] reads it, is returned; no handle is
    touched.  For ["250 OK\r\n"] the text recorded is ["250 OK\r"], the
    line feed alone being stripped, and reading the leading token as a
    number gives 250. *)
Theorem response_is_cut_at_last_byte (plat : Platform) (env : Env)
    (extractReturnCode : string -> Z) (c : SecureSMTPClientBase)
    (fuel k : nat) (d : list ascii)
    (pCommand : string) (pErrorCode pTimeoutCode : Z) :
  is_uint (mCommandTimeOut (base c)) ->
  0 <= bio_puts env ->
  (forall j, (j < k)%nat -> read_return (bio_read env j) <= 0) ->
  bio_read env k = Data d -> d <> [] ->
  Z.of_nat k < mCommandTimeOut (base c) ->
  (k < fuel)%nat ->
  let m := sendCommandWithFeedback plat env extractReturnCode fuel pCommand
             pErrorCode pTimeoutCode in
  result_of m c = Some (extractReturnCode (kept_text d)) /\
  object_after m c = answered (kept_text d) c /\
  mLastServerResponse (base (object_after m c)) =
    c_str (removelast (take outbuf_size d)) /\
  handles (object_after m c) = handles c /\
  List.filter is_release (calls_of m c) = [] /\
  (d = line_250 ->
   kept_text d = ("250 OK" ++ String CR EmptyString)%string /\
   forall malformed, extractReturnCode_spec malformed (kept_text d) = 250).
Proof.
  intros Hu Hputs Hreads Hdata Hd Hk Hfuel m.
  assert (Hrun := answer_before_timeout plat env extractReturnCode c fuel k d
                    pCommand pErrorCode pTimeoutCode Hu Hputs Hreads Hdata Hd
                    Hk Hfuel).
  unfold result_of, object_after, calls_of. subst m. rewrite Hrun.
  cbn [fst snd self calls]. repeat split.
  - cbn [List.filter is_release releases_handle]. rewrite List.filter_app.
    cbn [List.filter is_release releases_handle app].
    rewrite app_nil_r. clear. induction k as [|k IH]; [reflexivity|].
    cbn [idle_rounds List.filter]. destruct plat; cbn; exact IH.
  - subst d. reflexivity.
  - subst d. intros malformed. reflexivity.
Qed.

(** C4 (amended) at work: ["250 OK\r\n"] arrives with the second read of a
    call whose budget is 3. *)
Lemma response_is_cut_at_last_byte_witness :
  let m := sendCommandWithFeedback Posix (sample_env (answer_at 1 line_250))
             (extractReturnCode_spec (-1)) 5 "ehlo localhost" (-1) (-2) in
  result_of m (secure_client 3) = Some 250 /\
  mLastServerResponse (base (object_after m (secure_client 3))) =
    ("250 OK" ++ String CR EmptyString)%string /\
  handles (object_after m (secure_client 3)) = (7, 8, 9).
Proof.
  cbv zeta.
  destruct (response_is_cut_at_last_byte Posix (sample_env (answer_at 1 line_250))
              (extractReturnCode_spec (-1)) (secure_client 3) 5 1 line_250
              "ehlo localhost" (-1) (-2))
    as (Hr & _ & Hl & Hh & _ & _).
  - unfold is_uint; cbn; lia.
  - cbn; lia.
  - intros j Hj. destruct j as [|j]; [vm_compute; discriminate | lia].
  - reflexivity.
  - discriminate.
  - cbn; lia.
  - lia.
  - split; [exact Hr|]. split; [exact Hl | exact Hh].
Defined.

(** ** Failures and teardown *)

(** A write that fails makes [sendCommand] clean up before it returns the
    error code of the caller. *)
Lemma sendCommand_failure_tears_down (plat : Platform) (env : Env)
    (c : SecureSMTPClientBase) (pCommand : string) (pErrorCode : Z) :
  bio_puts env < 0 ->
  let m := sendCommand plat env pCommand pErrorCode in
  result_of m c = pErrorCode /\
  torn_down (object_after m c) /\
  calls_of m c =
    [E_BIO_puts (mBIO c) pCommand; E_ERR_get_error] ++ cleanup_calls plat c.
Proof.
  intros Hputs m.
  apply (wp_run m c (fun a o l => a = pErrorCode /\ torn_down o /\ l = _)).
  subst m. unfold sendCommand. rewrite (puts_refused env Hputs).
  repeat wp_step. split; [reflexivity|]. split; [apply cleaned_torn_down|].
  reflexivity.
Qed.

(** The same for [sendCommandWithFeedback]. *)
Lemma sendCommandWithFeedback_failure_tears_down (plat : Platform) (env : Env)
    (extractReturnCode : string -> Z) (c : SecureSMTPClientBase) (fuel : nat)
    (pCommand : string) (pErrorCode pTimeoutCode : Z) :
  bio_puts env < 0 ->
  let m := sendCommandWithFeedback plat env extractReturnCode fuel pCommand
             pErrorCode pTimeoutCode in
  result_of m c = Some pErrorCode /\
  torn_down (object_after m c) /\
  calls_of m c =
    [E_BIO_puts (mBIO c) pCommand; E_ERR_get_error] ++ cleanup_calls plat c.
Proof.
  intros Hputs m.
  apply (wp_run m c (fun a o l => a = Some pErrorCode /\ torn_down o /\ l = _)).
  subst m. unfold sendCommandWithFeedback. rewrite (puts_refused env Hputs).
  repeat wp_step. split; [reflexivity|]. split; [apply cleaned_torn_down|].
  reflexivity.
Qed.


(** The three lemmas above at work: a write that fails, and a peer that
    shows no certificate. *)
Lemma sendCommand_failure_tears_down_witness :
  result_of (sendCommand Posix env_write_fails "quit" (-5)) (secure_client 3) = -5 /\
  torn_down (object_after (sendCommand Posix env_write_fails "quit" (-5))
               (secure_client 3)).
Proof.
  destruct (sendCommand_failure_tears_down Posix env_write_fails
              (secure_client 3) "quit" (-5)) as (Hr & Ht & _).
  - cbn. lia.
  - split; [exact Hr | exact Ht].
Defined.

Lemma sendCommandWithFeedback_failure_tears_down_witness :
  result_of (sendCommandWithFeedback Win32 env_write_fails
               (extractReturnCode_spec (-1)) 4 "ehlo localhost" (-5) (-6))
    (secure_client 3) = Some (-5) /\
  torn_down (object_after
    (sendCommandWithFeedback Win32 env_write_fails
       (extractReturnCode_spec (-1)) 4 "ehlo localhost" (-5) (-6))
    (secure_client 3)).
Proof.
  destruct (sendCommandWithFeedback_failure_tears_down Win32 env_write_fails
              (extractReturnCode_spec (-1)) (secure_client 3) 4
              "ehlo localhost" (-5) (-6)) as (Hr & Ht & _).
  - cbn. lia.
  - split; [exact Hr | exact Ht].
Defined.


(** C1 does not hold of the first three stages, which return without
    [cleanup].  When [BIO_new_ssl_connect] fails the negotiation returns
    its error code with the context just created still held and the socket
    still open; when the trust store cannot be provisioned (default paths
    on POSIX, system store on Windows) it returns with context and session
    still held; when [SSL_CTX_new] fails it returns with the socket still
    open.  None of these runs makes a releasing call. *)
Theorem early_failures_skip_cleanup :
  (let m := startTLSNegotiation Posix sample_errors env_no_bio in
   result_of m (plain_client 3) = -31 /\
   mCTX (object_after m (plain_client 3)) = 7 /\
   mSock (base (object_after m (plain_client 3))) = 5 /\
   List.filter is_release (calls_of m (plain_client 3)) = [] /\
   ~ failure_tears_down Posix sample_errors env_no_bio (plain_client 3)) /\
  (let m := startTLSNegotiation Posix sample_errors env_no_paths in
   result_of m (plain_client 3) = -33 /\
   handles (object_after m (plain_client 3)) = (7, 8, 9) /\
   mSock (base (object_after m (plain_client 3))) = 5 /\
   List.filter is_release (calls_of m (plain_client 3)) = [] /\
   ~ failure_tears_down Posix sample_errors env_no_paths (plain_client 3)) /\
  (let m := startTLSNegotiation Win32 sample_errors env_no_store in
   result_of m (plain_client 3) = -32 /\
   handles (object_after m (plain_client 3)) = (7, 8, 9) /\
   mSock (base (object_after m (plain_client 3))) = 5 /\
   List.filter is_release (calls_of m (plain_client 3)) = [] /\
   ~ failure_tears_down Win32 sample_errors env_no_store (plain_client 3)) /\
  (let m := startTLSNegotiation Posix sample_errors env_no_ctx in
   result_of m (plain_client 3) = -30 /\
   mSock (base (object_after m (plain_client 3))) = 5 /\
   List.filter is_release (calls_of m (plain_client 3)) = [] /\
   ~ failure_tears_down Posix sample_errors env_no_ctx (plain_client 3)).
Proof.
  cbv zeta. unfold failure_tears_down, torn_down.
  repeat split; try (vm_compute; reflexivity).
  all: intros H.
  all: assert (Hne : forall z : Z, (z ?= 0) = Lt -> z <> 0)
         by (intros z Hz ->; discriminate Hz).
  all: specialize (H ltac:(apply Hne; vm_compute; reflexivity)).
  all: vm_compute in H; destruct H as (H1 & H2 & H3 & H4); discriminate.
Qed.

(** ** Copies and moves *)







(** * Further properties of the code *)

(** ** Assigning an object to itself *)

(** An assignment of an object to itself, by copy or by move, changes
    nothing: the guards of lines 50 and 76 skip the body, so the object
    keeps its handles and the rest of the memory is as it was. *)
Theorem self_assignment_is_a_no_op
    (base_copy_assign : SMTPClientBase -> SMTPClientBase -> SMTPClientBase)
    (base_move_assign :
       SMTPClientBase -> SMTPClientBase -> SMTPClientBase * SMTPClientBase)
    (this : Z) (mem : gmap Z SecureSMTPClientBase) :
  is_Some (mem !! this) ->
  copy_assignment base_copy_assign this this mem = Some mem /\
  move_assignment base_move_assign this this mem = Some mem.
Proof.
  intros [t Ht]. unfold copy_assignment, move_assignment. rewrite Ht.
  rewrite bool_decide_eq_false_2 by (intros H; now apply H).
  split; reflexivity.
Qed.

(** The theorem above at work: the secure client at address 1 assigned to
    itself. *)
Lemma self_assignment_is_a_no_op_witness :
  copy_assignment (fun _ o => o) 1 1 {[1 := secure_client 3]} =
    Some {[1 := secure_client 3]} /\
  move_assignment (fun _ o => (o, o)) 1 1 {[1 := secure_client 3]} =
    Some {[1 := secure_client 3]}.
Proof.
  apply (self_assignment_is_a_no_op (fun _ o => o) (fun _ o => (o, o)) 1
           {[1 := secure_client 3]}).
  rewrite lookup_singleton_eq. eexists. reflexivity.
Defined.

(** ** Every handle is released exactly once *)













(** ** Outcomes of the negotiation *)





(** ** Handles held before a negotiation *)





(** ** What each stage leaves behind *)



(** ** The certificates of the system store, and sendCommand *)






(** [sendCommand] returns 0 exactly when [BIO_puts] did not return a
    negative value, a write of zero bytes included; it then has made that
    single call, has read no reply and has left the object as it was. *)
Theorem sendCommand_succeeds_iff_write_accepted (plat : Platform) (env : Env)
    (c : SecureSMTPClientBase) (pCommand : string) (pErrorCode : Z) :
  pErrorCode <> 0 ->
  let m := sendCommand plat env pCommand pErrorCode in
  (result_of m c = 0 <-> 0 <= bio_puts env) /\
  (0 <= bio_puts env ->
   object_after m c = c /\ calls_of m c = [E_BIO_puts (mBIO c) pCommand]).
Proof.
  intros Hcode m.
  apply (wp_run m c (fun a o l => (a = 0 <-> _) /\ (_ -> o = c /\ l = _))).
  subst m. unfold sendCommand.
  destruct (Z.lt_ge_cases (bio_puts env) 0) as [Hneg | Hpos].
  - rewrite (puts_refused env Hneg). repeat wp_step.
    split; [split; intros; [contradiction | lia] | intros; lia].
  - rewrite (puts_accepted env Hpos). repeat wp_step.
    split; [split; intros; [assumption | reflexivity] | intros; split; reflexivity].
Qed.

(** ** sendCommandWithFeedback: every run *)

(** Among the first [n] reads either none yields data, or there is a
    first one that does. *)
Lemma first_answer_or_silence (env : Env) (n : nat) :
  (forall j, (j < n)%nat -> read_return (bio_read env j) <= 0) \/
  (exists k, (k < n)%nat /\
     (forall j, (j < k)%nat -> read_return (bio_read env j) <= 0) /\
     0 < read_return (bio_read env k)).
Proof.
  induction n as [|n [IH | (k & Hk & Hbefore & Hdata)]].
  - left. intros j Hj. lia.
  - destruct (Z_le_gt_dec (read_return (bio_read env n)) 0) as [Hle | Hgt].
    + left. intros j Hj. destruct (Nat.eq_dec j n) as [-> | Hne];
        [exact Hle | apply IH; lia].
    + right. exists n. repeat split; [lia | intros j Hj; apply IH; lia | lia].
  - right. exists k. repeat split; [lia | exact Hbefore | exact Hdata].
Qed.

Lemma data_when_positive (r : read_outcome) :
  0 < read_return r -> exists d, r = Data d /\ d <> [].
Proof.
  destruct r as [k | d]; cbn [read_return]; intros H; [lia|].
  exists d. split; [reflexivity|]. intros ->. cbn in H. lia.
Qed.

Lemma write_failure_run (plat : Platform) (env : Env)
    (extractReturnCode : string -> Z) (c : SecureSMTPClientBase) (fuel : nat)
    (pCommand : string) (pErrorCode pTimeoutCode : Z) :
  bio_puts env < 0 ->
  run (sendCommandWithFeedback plat env extractReturnCode fuel pCommand
         pErrorCode pTimeoutCode) c =
  (Some pErrorCode,
   mkWorld (cleaned (set_mLastSocketErrNo (err_get_error env) c))
     ([E_BIO_puts (mBIO c) pCommand; E_ERR_get_error] ++ cleanup_calls plat c)).
Proof.
  intros Hputs. unfold run, sendCommandWithFeedback.
  unfold bind at 1. unfold emitf, emit. cbn [self calls app].
  rewrite (puts_refused env Hputs).
  unfold bind, emit, modify. cbn [self calls app].
  rewrite cleanup_run. reflexivity.
Qed.

Lemma reads_of_idle_rounds (plat : Platform) (bio : Z) (n : nat) :
  length (List.filter is_read (idle_rounds plat bio n)) = n.
Proof.
  induction n as [|n IH]; [reflexivity|].
  cbn [idle_rounds List.filter is_read length].
  destruct plat; cbn; now rewrite IH.
Qed.

Lemma reads_of_cleanup_calls (plat : Platform) (c : SecureSMTPClientBase) :
  List.filter is_read (cleanup_calls plat c) = [].
Proof.
  unfold cleanup_calls.
  destruct (mCTX c =? nullptr), (mBIO c =? nullptr), (mSock (base c) =? 0), plat;
    reflexivity.
Qed.

(** The three ways a call of [sendCommandWithFeedback] ends, with what it
    leaves behind in each. *)
Lemma feedback_cases (plat : Platform) (env : Env)
    (extractReturnCode : string -> Z) (c : SecureSMTPClientBase) (fuel : nat)
    (pCommand : string) (pErrorCode pTimeoutCode : Z) :
  is_uint (mCommandTimeOut (base c)) ->
  (Z.to_nat (mCommandTimeOut (base c)) < fuel)%nat ->
  let r := run (sendCommandWithFeedback plat env extractReturnCode fuel
                  pCommand pErrorCode pTimeoutCode) c in
  (bio_puts env < 0 /\
   r = (Some pErrorCode,
        mkWorld (cleaned (set_mLastSocketErrNo (err_get_error env) c))
          ([E_BIO_puts (mBIO c) pCommand; E_ERR_get_error] ++
           cleanup_calls plat c))) \/
  (0 <= bio_puts env /\
   (forall j, (j < Z.to_nat (mCommandTimeOut (base c)))%nat ->
              read_return (bio_read env j) <= 0) /\
   r = (Some pTimeoutCode,
        mkWorld (cleaned c)
          (E_BIO_puts (mBIO c) pCommand ::
           idle_rounds plat (mBIO c) (Z.to_nat (mCommandTimeOut (base c))) ++
           E_BIO_read (mBIO c) :: cleanup_calls plat c))) \/
  (exists k d,
     0 <= bio_puts env /\ Z.of_nat k < mCommandTimeOut (base c) /\
     (forall j, (j < k)%nat -> read_return (bio_read env j) <= 0) /\
     bio_read env k = Data d /\ d <> [] /\
     r = (Some (extractReturnCode (kept_text d)),
          mkWorld (answered (kept_text d) c)
            (E_BIO_puts (mBIO c) pCommand ::
             idle_rounds plat (mBIO c) k ++ [E_BIO_read (mBIO c)]))).
Proof.
  intros Hu Hfuel r. subst r.
  destruct (Z.lt_ge_cases (bio_puts env) 0) as [Hneg | Hpos].
  - left. split; [exact Hneg|]. now apply write_failure_run.
  - right.
    destruct (first_answer_or_silence env (Z.to_nat (mCommandTimeOut (base c))))
      as [Hsilent | (k & Hk & Hbefore & Hdata)].
    + left. split; [exact Hpos|]. split; [exact Hsilent|].
      now apply timeout_when_budget_spent.
    + right. destruct (data_when_positive _ Hdata) as (d & Hd & Hne).
      exists k, d. destruct Hu as [Hlo Hhi].
      repeat split; try assumption; try lia.
      apply answer_before_timeout; try assumption; try lia.
      split; assumption.
Qed.

(** The polling loop ends: a number of rounds above the budget is always
    enough for [sendCommandWithFeedback] to return, after at most
    [budget + 1] reads and at most [budget] pauses.  What it returns is the
    error code of the caller when the write was refused, the timeout code
    of the caller when none of the reads made before the budget was spent
    yielded data, and otherwise the code that [extractReturnCode] reads
    from the text received: the bytes of the first read that yielded data,
    without the last of them. *)
Theorem feedback_returns_within_budget (plat : Platform) (env : Env)
    (extractReturnCode : string -> Z) (c : SecureSMTPClientBase) (fuel : nat)
    (pCommand : string) (pErrorCode pTimeoutCode : Z) :
  is_uint (mCommandTimeOut (base c)) ->
  (Z.to_nat (mCommandTimeOut (base c)) < fuel)%nat ->
  let m := sendCommandWithFeedback plat env extractReturnCode fuel pCommand
             pErrorCode pTimeoutCode in
  (exists code, result_of m c = Some code /\
     ((bio_puts env < 0 /\ code = pErrorCode) \/
      (0 <= bio_puts env /\
       (forall j, (j < Z.to_nat (mCommandTimeOut (base c)))%nat ->
                  read_return (bio_read env j) <= 0) /\
       code = pTimeoutCode) \/
      (exists k d,
         0 <= bio_puts env /\ Z.of_nat k < mCommandTimeOut (base c) /\
         (forall j, (j < k)%nat -> read_return (bio_read env j) <= 0) /\
         bio_read env k = Data d /\ d <> [] /\
         code = extractReturnCode (kept_text d) /\
         mLastServerResponse (base (object_after m c)) = kept_text d))) /\
  (length (List.filter is_read (calls_of m c)) <=
     Z.to_nat (mCommandTimeOut (base c)) + 1)%nat /\
  (length (pauses (calls_of m c)) <= Z.to_nat (mCommandTimeOut (base c)))%nat.
Proof.
  intros Hu Hfuel m. subst m. unfold result_of, calls_of, object_after.
  destruct (feedback_cases plat env extractReturnCode c fuel pCommand
              pErrorCode pTimeoutCode Hu Hfuel)
    as [[Hneg ->] | [(Hpos & Hsilent & ->) |
                     (k & d & Hpos & Hk & Hbefore & Hdata & Hd & ->)]];
    cbn [fst snd calls self].
  - split; [exists pErrorCode; split; [reflexivity | left; auto]|].
    cbn [app List.filter is_read pauses omap list_omap pause_milliseconds].
    change (omap pause_milliseconds) with pauses.
    rewrite reads_of_cleanup_calls, pauses_cleanup_calls. cbn. lia.
  - split; [exists pTimeoutCode; split; [reflexivity | right; left; auto]|].
    cbn [List.filter is_read].
    rewrite List.filter_app. cbn [List.filter is_read].
    rewrite reads_of_cleanup_calls, length_app, reads_of_idle_rounds.
    unfold pauses. cbn [omap list_omap pause_milliseconds].
    rewrite omap_app. cbn [omap list_omap pause_milliseconds].
    change (omap pause_milliseconds) with pauses.
    rewrite pauses_idle_rounds, pauses_cleanup_calls, app_nil_r, repeat_length.
    cbn [length]. lia.
  - split.
    { exists (extractReturnCode (kept_text d)). split; [reflexivity|].
      right; right. exists k, d. repeat split; assumption. }
    cbn [List.filter is_read].
    rewrite List.filter_app. cbn [List.filter is_read].
    rewrite length_app, reads_of_idle_rounds.
    unfold pauses. cbn [omap list_omap pause_milliseconds].
    rewrite omap_app. cbn [omap list_omap pause_milliseconds].
    change (omap pause_milliseconds) with pauses.
    rewrite pauses_idle_rounds, app_nil_r, repeat_length.
    cbn [length]. lia.
Qed.

(** What the uninitialised buffer held never shows: the result, the
    object left behind and the calls made are the same whatever bytes the
    stack held where [outbuf] was placed. *)
Theorem stack_content_never_shows (plat : Platform) (env : Env)
    (extractReturnCode : string -> Z) (c : SecureSMTPClientBase) (fuel : nat)
    (pCommand : string) (pErrorCode pTimeoutCode : Z) (s : nat -> ascii) :
  is_uint (mCommandTimeOut (base c)) ->
  (Z.to_nat (mCommandTimeOut (base c)) < fuel)%nat ->
  run (sendCommandWithFeedback plat (with_stack s env) extractReturnCode fuel
         pCommand pErrorCode pTimeoutCode) c =
  run (sendCommandWithFeedback plat env extractReturnCode fuel
         pCommand pErrorCode pTimeoutCode) c.
Proof.
  intros Hu Hfuel.
  destruct (Z.lt_ge_cases (bio_puts env) 0) as [Hneg | Hpos].
  - rewrite (write_failure_run plat (with_stack s env)) by exact Hneg.
    rewrite (write_failure_run plat env) by exact Hneg. reflexivity.
  - destruct (first_answer_or_silence env (Z.to_nat (mCommandTimeOut (base c))))
      as [Hsilent | (k & Hk & Hbefore & Hdata)].
    + rewrite (timeout_when_budget_spent plat (with_stack s env))
        by first [exact Hu | exact Hpos | exact Hsilent | exact Hfuel].
      rewrite (timeout_when_budget_spent plat env) by assumption.
      reflexivity.
    + destruct (data_when_positive _ Hdata) as (d & Hd & Hne).
      destruct Hu as [Hlo Hhi].
      rewrite (answer_before_timeout plat (with_stack s env) extractReturnCode
                 c fuel k d); try assumption; try lia;
        [| split; assumption].
      rewrite (answer_before_timeout plat env extractReturnCode c fuel k d);
        try assumption; try lia; [| split; assumption].
      reflexivity.
Qed.

Lemma c_str_length (l : list ascii) : (String.length (c_str l) <= length l)%nat.
Proof.
  induction l as [|x l IH]; cbn [c_str String.length length]; [lia|].
  destruct (Ascii.eqb x NUL); cbn [String.length]; lia.
Qed.

(** The text recorded as the last response is shorter than the buffer:
    of a reply of 1024 bytes or more, the first 1023 bytes at most are
    kept, and what a later read would have delivered is not read at all. *)
Theorem recorded_response_fits_buffer (plat : Platform) (env : Env)
    (extractReturnCode : string -> Z) (c : SecureSMTPClientBase)
    (fuel k : nat) (d : list ascii)
    (pCommand : string) (pErrorCode pTimeoutCode : Z) :
  is_uint (mCommandTimeOut (base c)) ->
  0 <= bio_puts env ->
  (forall j, (j < k)%nat -> read_return (bio_read env j) <= 0) ->
  bio_read env k = Data d -> d <> [] ->
  Z.of_nat k < mCommandTimeOut (base c) ->
  (k < fuel)%nat ->
  let m := sendCommandWithFeedback plat env extractReturnCode fuel pCommand
             pErrorCode pTimeoutCode in
  (String.length (mLastServerResponse (base (object_after m c))) < outbuf_size)%nat /\
  length (List.filter is_read (calls_of m c)) = S k.
Proof.
  intros Hu Hputs Hreads Hdata Hd Hk Hfuel m.
  assert (Hrun := answer_before_timeout plat env extractReturnCode c fuel k d
                    pCommand pErrorCode pTimeoutCode Hu Hputs Hreads Hdata Hd
                    Hk Hfuel).
  unfold object_after, calls_of. subst m. rewrite Hrun.
  cbn [snd self calls answered base mLastServerResponse]. split.
  - unfold kept_text.
    pose proof (c_str_length (removelast (take outbuf_size d))) as Hlen.
    assert (Htake : take outbuf_size d <> [])
      by (destruct d; [congruence | discriminate]).
    destruct (exists_last Htake) as (l & x & Hl).
    rewrite Hl, removelast_last in *.
    assert (length (take outbuf_size d) <= outbuf_size)%nat
      by (rewrite length_take; lia).
    rewrite Hl, length_app in H. cbn [length] in H. lia.
  - cbn [List.filter is_read]. rewrite List.filter_app.
    cbn [List.filter is_read]. rewrite length_app, reads_of_idle_rounds.
    cbn [length]. lia.
Qed.

(** ** The write of line 275 *)

Lemma fill_length (outbuf : list ascii) (r : read_outcome) :
  length outbuf = outbuf_size -> length (fill outbuf r) = outbuf_size.
Proof.
  intros Hlen. unfold fill. rewrite length_app, length_drop, Hlen.
  assert (length (delivered r) <= outbuf_size)%nat; [|lia].
  destruct r as [k | d]; cbn [delivered length]; [lia|].
  rewrite length_take. lia.
Qed.

Lemma read_return_bound (r : read_outcome) :
  read_return r <= Z.of_nat outbuf_size.
Proof.
  destruct r as [k | d]; cbn [read_return]; [lia|].
  rewrite length_take. lia.
Qed.

(** What the loop hands over when it is left. *)
Lemma poll_exit_state (plat : Platform) (env : Env) (fuel : nat) :
  forall (attempt : nat) (waitTime : Z) (outbuf : list ascii) (w w' : World)
         (n wt : Z) (buf : list ascii),
  poll plat env fuel attempt waitTime outbuf w = (Some (n, wt, buf), w') ->
  length outbuf = outbuf_size ->
  length buf = outbuf_size /\
  n <= Z.of_nat outbuf_size /\
  (wt < mCommandTimeOut (base (self w)) -> 1 <= n).
Proof.
  induction fuel as [|fuel IH];
    intros attempt waitTime outbuf w w' n wt buf Hpoll Hlen.
  - discriminate Hpoll.
  - destruct w as [c l]. cbn [poll] in Hpoll.
    unfold bind at 1 in Hpoll. unfold emitf, emit at 1 in Hpoll.
    cbn [self calls] in Hpoll.
    unfold bind at 1 in Hpoll. unfold get at 1 in Hpoll.
    cbn [self calls] in Hpoll.
    destruct ((read_return (bio_read env attempt) <=? 0) &&
              (waitTime <? mCommandTimeOut (base c))) eqn:Hcond.
    + unfold bind in Hpoll.
      destruct (sleep plat 1 _) as [[] w1] eqn:Hsleep.
      assert (Hself : self w1 = c).
      { unfold sleep in Hsleep. destruct plat; unfold emit in Hsleep;
          injection Hsleep as <-; reflexivity. }
      specialize (IH _ _ _ w1 w' n wt buf Hpoll (fill_length _ _ Hlen)).
      rewrite Hself in IH. exact IH.
    + unfold ret in Hpoll. injection Hpoll as <- <- <- <-.
      split; [now apply fill_length|].
      split; [apply read_return_bound|].
      cbn [self]. intros Hwait.
      apply andb_false_iff in Hcond. destruct Hcond as [Hc | Hc].
      * apply Z.leb_gt in Hc. lia.
      * apply Z.ltb_ge in Hc. lia.
Qed.

(** The byte that line 275 overwrites lies inside [outbuf]: whenever the
    loop is left with budget to spare, between 1 and 1024 bytes were
    received, so that the index [bytes_received - 1] is one of the 1024
    of the buffer. *)
Theorem nul_write_stays_in_buffer (plat : Platform) (env : Env) (fuel : nat)
    (c : SecureSMTPClientBase) (n wt : Z) (buf : list ascii) :
  fst (poll plat env fuel 0 0 (fresh_outbuf env) (mkWorld c [])) =
    Some (n, wt, buf) ->
  wt < mCommandTimeOut (base c) ->
  0 <= n - 1 /\ (Z.to_nat (n - 1) < length buf)%nat /\ length buf = outbuf_size.
Proof.
  intros Hpoll Hwait.
  destruct (poll plat env fuel 0 0 (fresh_outbuf env) (mkWorld c []))
    as [r w'] eqn:Hrun.
  cbn [fst] in Hpoll. subst r.
  destruct (poll_exit_state plat env fuel _ _ _ _ _ _ _ _ Hrun) as (Hlen & Hn & Hpos).
  - unfold fresh_outbuf. rewrite length_map, length_seq. reflexivity.
  - specialize (Hpos Hwait). rewrite Hlen. unfold outbuf_size in *. lia.
Qed.

(** The theorem above at work: ["250 OK\r\n"], 8 bytes, arrives with the
    first read. *)
Lemma nul_write_stays_in_buffer_witness :
  let env := sample_env (answer_at 0 line_250) in
  fst (poll Posix env 1 0 0 (fresh_outbuf env) (mkWorld (secure_client 3) [])) =
    Some (8, 0, fill (fresh_outbuf env) (Data line_250)) /\
  (Z.to_nat (8 - 1) < length (fill (fresh_outbuf env) (Data line_250)))%nat.
Proof.
  cbv zeta.
  assert (Hrun : fst (poll Posix (sample_env (answer_at 0 line_250)) 1 0 0
                        (fresh_outbuf (sample_env (answer_at 0 line_250)))
                        (mkWorld (secure_client 3) [])) =
                 Some (8, 0, fill (fresh_outbuf (sample_env (answer_at 0 line_250)))
                                (Data line_250)))
    by (vm_compute; reflexivity).
  split; [exact Hrun|].
  destruct (nul_write_stays_in_buffer Posix (sample_env (answer_at 0 line_250)) 1
              (secure_client 3) 8 0 _ Hrun) as (_ & H2 & _).
  - vm_compute. reflexivity.
  - exact H2.
Defined.

(** ** getServerSecureIdentification *)

Section Secure_identification_facts.
Variable plat : Platform.
Variable env : Env.
Variable extractReturnCode : string -> Z.
Variables ERROR TIMEOUT : Z.
Variable ServerAuthOptions : Type.
Variable extractAuthenticationOptions : string -> ServerAuthOptions.

(** The object when the command is sent: two entries further in the
    log. *)
Lemma identification_run (fuel : nat) (auth : option ServerAuthOptions)
    (c : SecureSMTPClientBase) :
  let announced :=
    object_after
      (addCommunicationLogItem
         "Contacting the server again but via the secure channel..." None;;;
       addCommunicationLogItem ehlo None) c in
  run (getServerSecureIdentification plat env extractReturnCode ERROR TIMEOUT
         ServerAuthOptions extractAuthenticationOptions fuel auth) c =
  let (answer, w) :=
    run (sendCommandWithFeedback plat env extractReturnCode fuel ehlo
           ERROR TIMEOUT) announced in
  match answer with
  | None => (None, w)
  | Some code =>
      if negb (code =? EHLO_SUCCESS_CODE) then (Some (code, auth), w)
      else (Some (EHLO_SUCCESS_CODE,
                  Some (extractAuthenticationOptions
                          (mLastServerResponse (base (self w))))), w)
  end.
Proof.
  cbv zeta. unfold run at 1, getServerSecureIdentification.
  unfold bind at 1. unfold addCommunicationLogItem at 1. unfold modify at 1.
  cbn [self calls].
  unfold bind at 1. unfold addCommunicationLogItem at 1. unfold modify at 1.
  cbn [self calls].
  unfold bind at 1. unfold run, object_after.
  unfold bind, addCommunicationLogItem, modify. cbn [snd self calls].
  destruct (sendCommandWithFeedback plat env extractReturnCode fuel ehlo
              ERROR TIMEOUT _) as [[code|] w]; [|reflexivity].
  destruct (negb (code =? EHLO_SUCCESS_CODE)); reflexivity.
Qed.

(** An answer arrives within the budget: the code read from it is
    returned; when that code is 250 the authentication options are
    replaced by those read from the text just recorded, whatever was held
    before, and otherwise they are kept. *)
Lemma identification_after_answer (fuel k : nat) (d : list ascii)
    (auth : option ServerAuthOptions) (c : SecureSMTPClientBase) :
  is_uint (mCommandTimeOut (base c)) ->
  0 <= bio_puts env ->
  (forall j, (j < k)%nat -> read_return (bio_read env j) <= 0) ->
  bio_read env k = Data d -> d <> [] ->
  Z.of_nat k < mCommandTimeOut (base c) ->
  (k < fuel)%nat ->
  let m := getServerSecureIdentification plat env extractReturnCode ERROR
             TIMEOUT ServerAuthOptions extractAuthenticationOptions fuel auth in
  result_of m c =
    Some (if extractReturnCode (kept_text d) =? EHLO_SUCCESS_CODE
          then (EHLO_SUCCESS_CODE,
                Some (extractAuthenticationOptions (kept_text d)))
          else (extractReturnCode (kept_text d), auth)) /\
  mLastServerResponse (base (object_after m c)) = kept_text d /\
  handles (object_after m c) = handles c /\
  mCommunicationLog (base (object_after m c)) =
    mCommunicationLog (base c) ++
    [("Contacting the server again but via the secure channel..."%string, None);
     (ehlo, None); (kept_text d, Some "s"%string)].
Proof.
  intros Hu Hputs Hreads Hdata Hd Hk Hfuel m. subst m.
  unfold result_of, object_after at 1 2 3.
  rewrite identification_run. cbv zeta.
  rewrite (answer_before_timeout plat env extractReturnCode
             (object_after
                (addCommunicationLogItem
                   "Contacting the server again but via the secure channel..."
                   None;;; addCommunicationLogItem ehlo None) c)
             fuel k d ehlo ERROR TIMEOUT Hu Hputs Hreads Hdata Hd Hk Hfuel).
  destruct (extractReturnCode (kept_text d) =? EHLO_SUCCESS_CODE);
    cbn [negb fst snd self]; repeat split;
    unfold object_after, run, bind, addCommunicationLogItem, modify, answered;
    cbn [fst snd self calls base mBIO mCTX mSSL mLastServerResponse
         mCommunicationLog handles set_base];
    rewrite <- ?app_assoc; reflexivity.
Qed.

(** No answer, or no write: the code of the caller comes back, the
    authentication options are kept as they were and the object is torn
    down, provided the macro returned is not itself 250. *)
Lemma identification_without_answer (fuel : nat)
    (auth : option ServerAuthOptions) (c : SecureSMTPClientBase) :
  is_uint (mCommandTimeOut (base c)) ->
  (Z.to_nat (mCommandTimeOut (base c)) < fuel)%nat ->
  let m := getServerSecureIdentification plat env extractReturnCode ERROR
             TIMEOUT ServerAuthOptions extractAuthenticationOptions fuel auth in
  (bio_puts env < 0 -> ERROR <> EHLO_SUCCESS_CODE ->
   result_of m c = Some (ERROR, auth) /\ torn_down (object_after m c)) /\
  (0 <= bio_puts env ->
   (forall j, read_return (bio_read env j) <= 0) ->
   TIMEOUT <> EHLO_SUCCESS_CODE ->
   result_of m c = Some (TIMEOUT, auth) /\ torn_down (object_after m c)).
Proof.
  intros Hu Hfuel m. subst m. unfold result_of, object_after at 1 2.
  rewrite identification_run. cbv zeta. split.
  - intros Hputs Hne. rewrite write_failure_run by exact Hputs.
    apply Z.eqb_neq in Hne. rewrite Hne. cbn [negb fst snd self].
    split; [reflexivity | apply cleaned_torn_down].
  - intros Hputs Hsilent Hne.
    rewrite (timeout_when_budget_spent plat env extractReturnCode
               (object_after
                  (addCommunicationLogItem
                     "Contacting the server again but via the secure channel..."
                     None;;; addCommunicationLogItem ehlo None) c)
               fuel ehlo ERROR TIMEOUT Hu Hputs (fun j _ => Hsilent j) Hfuel).
    apply Z.eqb_neq in Hne. rewrite Hne. cbn [negb fst snd self].
    split; [reflexivity | apply cleaned_torn_down].
Qed.

End Secure_identification_facts.

(** ** communication_error *)

Lemma c_str_without_NUL (l : list ascii) :
  Forall (fun x => x <> NUL) l -> list_ascii_of_string (c_str l) = l.
Proof.
  induction 1 as [|x l Hx _ IH]; cbn [c_str list_ascii_of_string]; [reflexivity|].
  apply Ascii.eqb_neq in Hx. rewrite Hx. cbn [list_ascii_of_string].
  now rewrite IH.
Qed.

(** [what ()] gives back the message the error was built from: the
    buffer holds the [size] bytes of the message and a closing NUL, so that
    a reader of the [const char *] stops inside it; the text read is the
    message up to its first NUL byte, and the whole message when it holds
    none. *)
Theorem what_returns_the_message (err_msg : list ascii) :
  let e := communication_error_new err_msg in
  error_message e = err_msg ++ [NUL] /\
  what e = c_str err_msg /\
  (Forall (fun x => x <> NUL) err_msg ->
   list_ascii_of_string (what e) = err_msg).
Proof.
  cbv zeta. unfold what, communication_error_new, memcpy, std_string_c_str.
  cbn [error_message].
  assert (Htake : take (length err_msg + 1) (err_msg ++ [NUL]) = err_msg ++ [NUL]).
  { apply take_ge. rewrite length_app. cbn [length]. lia. }
  rewrite Htake. split; [reflexivity|].
  rewrite c_str_stops_at_NUL. split; [reflexivity|].
  apply c_str_without_NUL.
Qed.

(** The theorem above at work. *)
Lemma what_returns_the_message_witness :
  what (communication_error_new (list_ascii_of_string "Unable to connect")) =
    "Unable to connect"%string /\
  what (communication_error_new
          (list_ascii_of_string "lost" ++ NUL :: list_ascii_of_string "tail")) =
    "lost"%string.
Proof.
  split.
  - destruct (what_returns_the_message (list_ascii_of_string "Unable to connect"))
      as (_ & H & _).
    rewrite H. reflexivity.
  - destruct (what_returns_the_message
                (list_ascii_of_string "lost" ++ NUL :: list_ascii_of_string "tail"))
      as (_ & H & _).
    rewrite H. reflexivity.
Defined.

(** ** Moves and the two destructors *)



(** ** The theorems of this part at work *)





Lemma sendCommand_succeeds_iff_write_accepted_witness :
  result_of (sendCommand Posix (sample_env silent) "quit" (-5)) (secure_client 3) = 0 /\
  object_after (sendCommand Posix (sample_env silent) "quit" (-5)) (secure_client 3) =
    secure_client 3.
Proof.
  destruct (sendCommand_succeeds_iff_write_accepted Posix (sample_env silent)
              (secure_client 3) "quit" (-5)) as (Hiff & Hpost).
  - discriminate.
  - split.
    + apply Hiff. cbn. lia.
    + apply Hpost. cbn. lia.
Defined.


Lemma feedback_returns_within_budget_witness :
  let m := sendCommandWithFeedback Posix (sample_env (answer_at 1 line_250))
             (extractReturnCode_spec (-1)) 4 "noop" (-1) (-2) in
  (exists code, result_of m (secure_client 3) = Some code) /\
  (length (List.filter is_read (calls_of m (secure_client 3))) <= 3 + 1)%nat /\
  (length (pauses (calls_of m (secure_client 3))) <= 3)%nat.
Proof.
  cbv zeta.
  destruct (feedback_returns_within_budget Posix
              (sample_env (answer_at 1 line_250)) (extractReturnCode_spec (-1))
              (secure_client 3) 4 "noop" (-1) (-2))
    as ((code & Hcode & _) & Hr & Hp).
  - unfold is_uint; cbn; lia.
  - cbn; lia.
  - split; [exists code; exact Hcode|]. split; [exact Hr | exact Hp].
Defined.

Lemma stack_content_never_shows_witness :
  run (sendCommandWithFeedback Posix
         (with_stack (fun _ => "S"%char) (sample_env (answer_at 0 line_250)))
         (extractReturnCode_spec (-1)) 4 "noop" (-1) (-2)) (secure_client 3) =
  run (sendCommandWithFeedback Posix (sample_env (answer_at 0 line_250))
         (extractReturnCode_spec (-1)) 4 "noop" (-1) (-2)) (secure_client 3).
Proof.
  apply stack_content_never_shows.
  - unfold is_uint; cbn; lia.
  - cbn; lia.
Defined.

Lemma recorded_response_fits_buffer_witness :
  let m := sendCommandWithFeedback Posix
             (sample_env (answer_at 0 (repeat "a"%char 2000)))
             (extractReturnCode_spec (-1)) 4 "noop" (-1) (-2) in
  (String.length (mLastServerResponse (base (object_after m (secure_client 3))))
     < outbuf_size)%nat /\
  length (List.filter is_read (calls_of m (secure_client 3))) = 1%nat.
Proof.
  cbv zeta.
  apply (recorded_response_fits_buffer Posix
           (sample_env (answer_at 0 (repeat "a"%char 2000)))
           (extractReturnCode_spec (-1)) (secure_client 3) 4 0
           (repeat "a"%char 2000)).
  - unfold is_uint; cbn; lia.
  - cbn; lia.
  - intros j Hj. lia.
  - reflexivity.
  - discriminate.
  - cbn; lia.
  - lia.
Defined.

Lemma identification_after_answer_witness :
  result_of (getServerSecureIdentification Posix
               (sample_env (answer_at 0 line_250)) (extractReturnCode_spec (-1))
               (-40) (-41) string (fun s => s) 4 None) (secure_client 3) =
    Some (250, Some ("250 OK" ++ String CR EmptyString)%string) /\
  result_of (getServerSecureIdentification Posix
               (sample_env (answer_at 0 line_421)) (extractReturnCode_spec (-1))
               (-40) (-41) string (fun s => s) 4 (Some "AUTH PLAIN"%string))
    (secure_client 3) = Some (421, Some "AUTH PLAIN"%string).
Proof.
  split.
  - destruct (identification_after_answer Posix
                (sample_env (answer_at 0 line_250)) (extractReturnCode_spec (-1))
                (-40) (-41) string (fun s => s) 4 0 line_250 None
                (secure_client 3)) as (H & _).
    + unfold is_uint; cbn; lia.
    + cbn; lia.
    + intros j Hj. lia.
    + reflexivity.
    + discriminate.
    + cbn; lia.
    + lia.
    + exact H.
  - destruct (identification_after_answer Posix
                (sample_env (answer_at 0 line_421)) (extractReturnCode_spec (-1))
                (-40) (-41) string (fun s => s) 4 0 line_421
                (Some "AUTH PLAIN"%string) (secure_client 3)) as (H & _).
    + unfold is_uint; cbn; lia.
    + cbn; lia.
    + intros j Hj. lia.
    + reflexivity.
    + discriminate.
    + cbn; lia.
    + lia.
    + exact H.
Defined.

Lemma identification_without_answer_witness :
  result_of (getServerSecureIdentification Win32 (sample_env silent)
               (extractReturnCode_spec (-1)) (-40) (-41) string (fun s => s) 4
               (Some "AUTH PLAIN"%string)) (secure_client 3) =
    Some (-41, Some "AUTH PLAIN"%string) /\
  result_of (getServerSecureIdentification Win32 env_write_fails
               (extractReturnCode_spec (-1)) (-40) (-41) string (fun s => s) 4
               (Some "AUTH PLAIN"%string)) (secure_client 3) =
    Some (-40, Some "AUTH PLAIN"%string).
Proof.
  split.
  - destruct (identification_without_answer Win32 (sample_env silent)
                (extractReturnCode_spec (-1)) (-40) (-41) string (fun s => s) 4
                (Some "AUTH PLAIN"%string) (secure_client 3)) as (_ & H).
    + unfold is_uint; cbn; lia.
    + cbn; lia.
    + apply H; [cbn; lia | intros j; cbn; lia | discriminate].
  - destruct (identification_without_answer Win32 env_write_fails
                (extractReturnCode_spec (-1)) (-40) (-41) string (fun s => s) 4
                (Some "AUTH PLAIN"%string) (secure_client 3)) as (H & _).
    + unfold is_uint; cbn; lia.
    + cbn; lia.
    + apply H; [cbn; lia | discriminate].
Defined.
